(** * The AAduino Zero command-line console (examples/cli/main.c)

    A shallow embedding of the console firmware: the line assembler of the
    foreground loop, the static command table, the command handlers, the
    blink-halt loop and the hexadecimal memory dumper, followed by the
    properties of the console engine stated over that embedding.

    Conventions.
    - A [uint32_t] is a [Z] with its wrap-around written out ([u32]); the
      [uint16_t] pulled from the ring buffer is a [Z]; a [char] stored in the
      line buffer is the low byte of that value.
    - C strings handed to the handlers ([argv]) are [string]s; the line buffer
      is a [list Z] of [MAX_LINE_LENGTH] bytes updated by index.
    - Everything outside main.c (the persistent store, the radio driver, the
      tick service, GPIO, libc's [atoi], raw memory) is an interface, the
      class [Board], over an abstract hardware state.  Every call that leaves
      main.c is also logged, in order, in the [trace] of the [world]; the
      transcript is the sequence of [Print] events of that trace. *)

From Stdlib Require Import ZArith String Ascii List Lia DecimalString HexadecimalString.
From stdpp Require Import base tactics option list numbers.
Import ListNotations.

Open Scope Z_scope.

(** ** Machine integers and text formatting *)

Definition u32 (z : Z) : Z := z mod 2 ^ 32.

(** The two's-complement reading of a 32-bit word, as [%d] prints it. *)
Definition s32 (z : Z) : Z :=
  let r := u32 z in if r <? 2 ^ 31 then r else r - 2 ^ 32.

(** The low byte of a value, as the conversion to [char] keeps it. *)
Definition lo8 (z : Z) : Z := Z.land z 255.

Definition nl : string := String "010" EmptyString.

Definition char_of (z : Z) : ascii := ascii_of_N (Z.to_N (lo8 z)).

(** [%c] *)
Definition fmt_c (z : Z) : string := String (char_of z) EmptyString.

(** [%d] *)
Definition fmt_d (z : Z) : string :=
  DecimalString.NilZero.string_of_int (Z.to_int (s32 z)).

Fixpoint zero_pad (width : nat) (s : string) : string :=
  match width with
  | O => s
  | S k => if (String.length s <? width)%nat
           then String "0" (zero_pad k s) else s
  end.

Definition hex (z : Z) : string :=
  HexadecimalString.NilZero.string_of_uint (N.to_hex_uint (Z.to_N (u32 z))).

(** [%08x] and [%02x] *)
Definition fmt_08x (z : Z) : string := zero_pad 8 (hex z).
Definition fmt_02x (z : Z) : string := zero_pad 2 (hex z).

Definition bytes_of_string (s : string) : list Z :=
  map (fun c => Z.of_N (N_of_ascii c)) (list_ascii_of_string s).

(** [strlen] *)
Definition strlen (s : string) : Z := Z.of_nat (String.length s).

(** [strcmp(a, b) == 0] *)
Definition streq (a b : string) : bool := String.eqb a b.

(** The first [len] bytes found at a [char *] that points to the C string
    [s]: its characters and then its terminator.  No caller in main.c asks
    for more than [strlen s + 1] bytes. *)
Definition bytes_at (s : string) (len : Z) : list Z :=
  take (Z.to_nat len) (bytes_of_string s ++ [0]).

(** The four bytes of a [uint32_t] in memory (little endian, Cortex-M0). *)
Definition le32 (v : Z) : list Z :=
  [ Z.land (u32 v) 255; Z.land (Z.shiftr (u32 v) 8) 255;
    Z.land (Z.shiftr (u32 v) 16) 255; Z.land (Z.shiftr (u32 v) 24) 255 ].

(** [argv[k]]; a slot past the tokens reads as the empty string.  The arity
    bounds of the command table keep every handler's dereferences inside
    [argc]. *)
Definition arg (argv : list string) (k : nat) : string :=
  nth k argv EmptyString.

(** ** Calls that leave main.c *)

Inductive parameter_id_t : Type :=
| past_rfm_node_id
| past_rfm_net_id
| past_rfm_gateway_id
| past_rfm_max_power
| past_rfm_key.

Inductive call : Type :=
| c_systick_init
| c_systick_deinit
| c_past_format
| c_past_init
| c_past_read_unit (id : Z)
| c_past_write_unit (id : Z) (data : list Z)
| c_gpio_get_temp_alert
| c_hw_set_led (on : bool)
| c_delay_ms (ms : Z)
| c_rfm69_setResetPin
| c_rfm69_reset
| c_rfm69_init
| c_rfm69_sleep
| c_rfm69_setPowerDBm (dbm : Z)
| c_rfm69_setCSMA (on : bool)
| c_rfm69_setAutoReadRSSI (on : bool)
| c_rfm69_setAESEncryption (key : list Z)
| c_rfm69link_setNodeId (id : Z)
| c_rfm69link_setNetworkId (id : Z)
| c_rfm69link_sendFrame (dst : Z) (payload : list Z)
| c_cli_run (line : list Z)
| c_pwr_cr_set_lpsdsr
| c_pwr_set_stop_mode
| c_wfi.

Inductive event : Type :=
| Print (s : string)
| Call (c : call).

(** The interface of everything main.c links against, over an abstract
    hardware state.  [unit_id] is the numbering of pastunits.h. *)
Class Board (hw_t : Type) : Type := {
  unit_id : parameter_id_t -> Z;
  atoi : string -> Z;
  systick_init : hw_t -> hw_t;
  systick_deinit : hw_t -> hw_t;
  past_format : hw_t -> bool * hw_t;
  past_init : hw_t -> bool * hw_t;
  (* the address and the length of the unit's data *)
  past_read_unit : Z -> hw_t -> option (Z * Z);
  past_write_unit : Z -> list Z -> hw_t -> bool * hw_t;
  gpio_get_temp_alert : hw_t -> Z;
  hw_set_led : bool -> hw_t -> hw_t;
  delay_ms : Z -> hw_t -> hw_t;
  (* raw memory: a byte, a word, a NUL-terminated string, a byte range *)
  load8 : hw_t -> Z -> Z;
  load32 : hw_t -> Z -> Z;
  load_cstr : hw_t -> Z -> string;
  load_bytes : hw_t -> Z -> Z -> list Z;
  rfm69_setResetPin : hw_t -> hw_t;
  rfm69_reset : hw_t -> hw_t;
  rfm69_init : hw_t -> bool * hw_t;
  rfm69_sleep : hw_t -> hw_t;
  rfm69_setPowerDBm : Z -> hw_t -> hw_t;
  rfm69_setCSMA : bool -> hw_t -> hw_t;
  rfm69_setAutoReadRSSI : bool -> hw_t -> hw_t;
  rfm69_setAESEncryption : list Z -> hw_t -> hw_t;
  rfm69link_setNodeId : Z -> hw_t -> hw_t;
  rfm69link_setNetworkId : Z -> hw_t -> hw_t;
  (* the status byte and the RSSI left in the frame *)
  rfm69link_sendFrame : Z -> list Z -> hw_t -> (Z * Z) * hw_t;
  pwr_cr_set_lpsdsr : hw_t -> hw_t;
  pwr_set_stop_mode : hw_t -> hw_t;
  wfi : hw_t -> hw_t
}.

(** ** The state of the firmware

    [low_power] is the global flag of main.c; [hw] is everything behind
    [Board]; [trace] is the chronological log of prints and outside calls. *)

Record world (hw_t : Type) : Type := World {
  low_power : bool;
  hw : hw_t;
  trace : list event
}.
Arguments World {hw_t} _ _ _.
Arguments low_power {hw_t} _.
Arguments hw {hw_t} _.
Arguments trace {hw_t} _.

(** The operator-visible text: the [Print] events of a trace, in order. *)
Fixpoint transcript (tr : list event) : list string :=
  match tr with
  | [] => []
  | Print s :: tr' => s :: transcript tr'
  | Call _ :: tr' => transcript tr'
  end.

(** The outside calls of a trace, in order. *)
Fixpoint calls (tr : list event) : list call :=
  match tr with
  | [] => []
  | Print _ :: tr' => calls tr'
  | Call c :: tr' => c :: calls tr'
  end.

(** The lines handed to [cli_run], in order. *)
Fixpoint dispatched (tr : list event) : list (list Z) :=
  match tr with
  | [] => []
  | Call (c_cli_run l) :: tr' => l :: dispatched tr'
  | _ :: tr' => dispatched tr'
  end.

(** ** Control inside [blinken_halt]

    The function is a [while(1)] around a blink loop.  Its control points are
    spelled out so that "never returns" is a statement about reachability:
    [B_return] stands for the function's epilogue. *)

Inductive blink_pc : Type :=
| B_entry                (* delay_ms(1) *)
| B_while                (* the test of while(1) *)
| B_for (i : Z)          (* the test i < blink_count *)
| B_led_on (i : Z)       (* hw_set_led(true) *)
| B_wait_on (i : Z)      (* delay_ms(100) *)
| B_led_off (i : Z)      (* hw_set_led(false) *)
| B_wait_off (i : Z)     (* delay_ms(100); i++ *)
| B_pause                (* delay_ms(1000) *)
| B_return.

Record blink_config (hw_t : Type) : Type := BlinkConfig {
  bpc : blink_pc;
  blink_count : Z;
  bworld : world hw_t
}.
Arguments BlinkConfig {hw_t} _ _ _.
Arguments bpc {hw_t} _.
Arguments blink_count {hw_t} _.
Arguments bworld {hw_t} _.

(** What a piece of firmware code does with control: it hands it back with
    a value, or it has entered [blinken_halt]. *)
Inductive outcome (hw_t A : Type) : Type :=
| Ret (a : A) (w : world hw_t)
| Halted (c : blink_config hw_t).
Arguments Ret {hw_t A} _ _.
Arguments Halted {hw_t A} _.

Definition M (hw_t A : Type) : Type := world hw_t -> outcome hw_t A.

Definition ret {hw_t A : Type} (a : A) : M hw_t A :=
  fun w => Ret a w.

Definition bind {hw_t A B : Type} (m : M hw_t A) (f : A -> M hw_t B) : M hw_t B :=
  fun w =>
    match m w with
    | Ret a w' => f a w'
    | Halted c => Halted c
    end.

Declare Scope fw_scope.
Delimit Scope fw_scope with fw.
Notation "x ← y ; z" := (bind y (fun x => z))
  (at level 20, y at level 100, z at level 200, only parsing) : fw_scope.
Notation "' x ← y ; z" := (bind y (fun x => z))
  (at level 20, x pattern, y at level 100, z at level 200, only parsing) : fw_scope.
Notation "x ;; z" := (bind x (fun _ => z))
  (at level 100, z at level 200, only parsing, right associativity) : fw_scope.

Section Firmware.
Context {hw_t : Type} {board : Board hw_t}.

Abbreviation world := (world hw_t).
Abbreviation M := (M hw_t).
Local Open Scope fw_scope.

Definition log (e : event) (w : world) : world :=
  World (low_power w) (hw w) (trace w ++ [e]).

Definition set_hw (h : hw_t) (w : world) : world :=
  World (low_power w) h (trace w).

Definition emit (e : event) : M unit := fun w => Ret tt (log e w).

Definition dbg_printf (s : string) : M unit := emit (Print s).

(** An outside call that returns nothing, one that returns a value, and
    one that only reads. *)
Definition ext (c : call) (f : hw_t -> hw_t) : M unit :=
  fun w => Ret tt (set_hw (f (hw w)) (log (Call c) w)).

Definition ext_r {R : Type} (c : call) (f : hw_t -> R * hw_t) : M R :=
  fun w => let '(r, h) := f (hw w) in Ret r (set_hw h (log (Call c) w)).

Definition ext_q {R : Type} (c : call) (f : hw_t -> R) : M R :=
  fun w => Ret (f (hw w)) (log (Call c) w).

(** A dereference of raw memory: no call, no event. *)
Definition peek {R : Type} (f : hw_t -> R) : M R :=
  fun w => Ret (f (hw w)) w.

Definition set_low_power (b : bool) : M unit :=
  fun w => Ret tt (World b (hw w) (trace w)).

Definition get_low_power : M bool :=
  fun w => Ret (low_power w) w.

(** [for (uint32_t i = from; i < to; i++) body(i)], by recursion on the
    number of iterations left. *)
Fixpoint for_loop (n : nat) (i : Z) (body : Z -> M unit) : M unit :=
  match n with
  | O => ret tt
  | S k => body i ;; for_loop k (u32 (i + 1)) body
  end.

Definition for_u32 (to : Z) (body : Z -> M unit) : M unit :=
  for_loop (Z.to_nat to) 0 body.

(** *** power_handler *)

Definition power_handler (argc : Z) (argv : list string) : M unit :=
  if streq (arg argv 1) "low" then
    ext c_systick_deinit systick_deinit ;;
    set_low_power true ;;
    dbg_printf ("OK" ++ nl)
  else if streq (arg argv 1) "normal" then
    ext c_systick_init systick_init ;;
    dbg_printf ("OK" ++ nl) ;;
    set_low_power false
  else
    dbg_printf ("Error: illegal argument" ++ nl).

(** *** blinken_halt and halt_handler *)

(** One control step of [blinken_halt]. *)
Definition blink_step (c : blink_config hw_t) : blink_config hw_t :=
  let n := blink_count c in
  let w := bworld c in
  let led on := set_hw (hw_set_led on (hw w)) (log (Call (c_hw_set_led on)) w) in
  let delay ms := set_hw (delay_ms ms (hw w)) (log (Call (c_delay_ms ms)) w) in
  match bpc c with
  | B_entry => BlinkConfig B_while n (delay 1)
  | B_while => if 1 =? 0 then BlinkConfig B_return n w
               else BlinkConfig (B_for 0) n w
  | B_for i => if i <? n then BlinkConfig (B_led_on i) n w
               else BlinkConfig B_pause n w
  | B_led_on i => BlinkConfig (B_wait_on i) n (led true)
  | B_wait_on i => BlinkConfig (B_led_off i) n (delay 100)
  | B_led_off i => BlinkConfig (B_wait_off i) n (led false)
  | B_wait_off i => BlinkConfig (B_for (u32 (i + 1))) n (delay 100)
  | B_pause => BlinkConfig B_while n (delay 1000)
  | B_return => c
  end.

Fixpoint blink_run (steps : nat) (c : blink_config hw_t) : blink_config hw_t :=
  match steps with
  | O => c
  | S k => blink_run k (blink_step c)
  end.

(** The call [blinken_halt(blink_count)]: control enters the function. *)
Definition blinken_halt {A : Type} (blink_count : Z) : M A :=
  fun w => Halted (BlinkConfig B_entry blink_count w).

Definition halt_echo (argv : list string) (i : Z) : string :=
  (fmt_d i ++ " '" ++ arg argv (Z.to_nat i) ++ "'" ++ nl)%string.

Definition halt_handler (argc : Z) (argv : list string) : M unit :=
  for_u32 argc (fun i => dbg_printf (halt_echo argv i)) ;;
  dbg_printf ("Halted" ++ nl) ;;
  blinken_halt 2.

(** *** past_format_handler *)

Definition past_format_handler (argc : Z) (argv : list string) : M unit :=
  formatted ← ext_r c_past_format past_format;
  (if negb formatted
   then dbg_printf ("Past formatting failed" ++ nl) else ret tt) ;;
  opened ← ext_r c_past_init past_init;
  if opened then dbg_printf ("OK" ++ nl) else dbg_printf ("ERROR" ++ nl).

(** *** temperature_alert_handler *)

Definition temperature_alert_handler (argc : Z) (argv : list string) : M unit :=
  if argc =? 3 then
    dbg_printf ("low:" ++ fmt_d (atoi (arg argv 1)) ++
                " high:" ++ fmt_d (atoi (arg argv 2)) ++ nl)
  else if argc =? 1 then
    level ← ext_q c_gpio_get_temp_alert gpio_get_temp_alert;
    dbg_printf (fmt_d level ++ nl)
  else
    ret tt.

(** *** The rfm command *)

Definition print_unit_u32 (label : string) (id : parameter_id_t) : M unit :=
  dbg_printf label ;;
  found ← ext_q (c_past_read_unit (unit_id id)) (past_read_unit (unit_id id));
  match found with
  | Some (temp, len) =>
      v ← peek (fun h => load32 h temp);
      dbg_printf (fmt_d v ++ nl)
  | None => dbg_printf ("NA" ++ nl)
  end.

Definition dump_rfm_settings : M unit :=
  print_unit_u32 "Node id    : " past_rfm_node_id ;;
  print_unit_u32 "Network id : " past_rfm_net_id ;;
  print_unit_u32 "Gateway id : " past_rfm_gateway_id ;;
  print_unit_u32 "Max power  : " past_rfm_max_power ;;
  dbg_printf "AES key    : " ;;
  found ← ext_q (c_past_read_unit (unit_id past_rfm_key))
                (past_read_unit (unit_id past_rfm_key));
  match found with
  | Some (temp2, len) =>
      s ← peek (fun h => load_cstr h temp2);
      dbg_printf (s ++ nl)
  | None => dbg_printf ("NA" ++ nl)
  end.

(** One of the five look-ups that open [rfm_init]: the unit's address, or
    the error message and an early return. *)
Definition need_unit (id : parameter_id_t) (missing : string)
    (k : Z -> M unit) : M unit :=
  found ← ext_q (c_past_read_unit (unit_id id)) (past_read_unit (unit_id id));
  match found with
  | Some (p, len) => k p
  | None => dbg_printf (missing ++ nl)
  end.

Definition rfm_init : M unit :=
  need_unit past_rfm_node_id "ERROR: RFM node id missing" (fun node_id =>
  need_unit past_rfm_net_id "ERROR: RFM network id missing" (fun network_id =>
  need_unit past_rfm_gateway_id "ERROR: RFM gateway id missing" (fun gateway_id =>
  need_unit past_rfm_max_power "ERROR: RFM max power missing" (fun max_power =>
  need_unit past_rfm_key "ERROR: RFM ARM key missing" (fun aesKey =>
    ext c_rfm69_setResetPin rfm69_setResetPin ;;
    ext c_rfm69_reset rfm69_reset ;;
    found ← ext_r c_rfm69_init rfm69_init;
    if negb found then
      dbg_printf ("ERROR: No RFM69CW found" ++ nl)
    else
      ext c_rfm69_sleep rfm69_sleep ;;
      dbm ← peek (fun h => load32 h max_power);
      ext (c_rfm69_setPowerDBm dbm) (rfm69_setPowerDBm dbm) ;;
      ext (c_rfm69_setCSMA true) (rfm69_setCSMA true) ;;
      ext (c_rfm69_setAutoReadRSSI true) (rfm69_setAutoReadRSSI true) ;;
      key ← peek (fun h => load_bytes h aesKey 16);
      ext (c_rfm69_setAESEncryption key) (rfm69_setAESEncryption key) ;;
      node ← peek (fun h => load32 h node_id);
      ext (c_rfm69link_setNodeId node) (rfm69link_setNodeId node) ;;
      net ← peek (fun h => load32 h network_id);
      ext (c_rfm69link_setNetworkId net) (rfm69link_setNetworkId net) ;;
      dbg_printf ("OK" ++ nl)))))).

Definition write_unit (id : Z) (data : list Z) : M bool :=
  ext_r (c_past_write_unit id data) (past_write_unit id data).

Definition rfm_set_uint32 (id : parameter_id_t) (value : Z) : M unit :=
  dbg_printf (fmt_d (unit_id id) ++ ":" ++ fmt_d value ++ nl) ;;
  ok ← write_unit (unit_id id) (le32 value);
  if ok then dbg_printf ("OK" ++ nl) else dbg_printf ("ERROR" ++ nl).

Definition rfm_set_str (id : parameter_id_t) (str : string) (len : Z) : M unit :=
  ok ← write_unit (unit_id id) (bytes_at str len);
  if ok then dbg_printf ("OK" ++ nl) else dbg_printf ("ERROR" ++ nl).

Definition rfm_tx (dst : Z) (data : string) : M unit :=
  let dst := Z.land dst 255 in
  let payload := bytes_at data (strlen data) in
  '(status, rssi) ← ext_r (c_rfm69link_sendFrame dst payload)
                          (rfm69link_sendFrame dst payload);
  if status =? 0 then dbg_printf ("ERROR:No response" ++ nl)
  else dbg_printf ("OK:" ++ fmt_d status ++ ":" ++ fmt_d rssi ++ nl).

Definition rfm_handler (argc : Z) (argv : list string) : M unit :=
  let cmd := arg argv 1 in
  if argc =? 1 then
    dump_rfm_settings
  else if argc =? 2 then
    if streq cmd "init" then rfm_init else ret tt
  else if argc =? 3 then
    if streq cmd "id" then
      rfm_set_uint32 past_rfm_node_id (u32 (atoi (arg argv 2)))
    else if streq cmd "net" then
      rfm_set_uint32 past_rfm_net_id (u32 (atoi (arg argv 2)))
    else if streq cmd "gw" then
      rfm_set_uint32 past_rfm_gateway_id (u32 (atoi (arg argv 2)))
    else if streq cmd "pwr" then
      rfm_set_uint32 past_rfm_max_power (u32 (atoi (arg argv 2)))
    else if streq cmd "key" then
      if negb (strlen (arg argv 2) =? 16) then
        dbg_printf ("ERROR: key must be 16 bytes" ++ nl)
      else
        rfm_set_str past_rfm_key (arg argv 2) 16
    else
      dbg_printf ("ERROR: Illegal command" ++ nl)
  else if argc =? 4 then
    if streq cmd "tx" then rfm_tx (u32 (atoi (arg argv 2))) (arg argv 3)
    else dbg_printf ("ERROR: Illegal command" ++ nl)
  else
    dbg_printf ("ERROR: Wrong number of parameters" ++ nl).

(** *** dump_mem *)

Definition LINE_WIDTH : Z := 16.

Definition dump_mem (address length : Z) : M unit :=
  dbg_printf (fmt_08x address ++ "..." ++
              fmt_08x (u32 (address + length - 1)) ++ ":") ;;
  for_u32 length (fun i =>
    (if i mod LINE_WIDTH =? 0 then
       dbg_printf nl ;;
       dbg_printf ("  " ++ fmt_08x (u32 (address + i)) ++ " : ")
     else ret tt) ;;
    byte ← peek (fun h => load8 h (u32 (address + i)));
    dbg_printf (" " ++ fmt_02x byte)) ;;
  dbg_printf nl.

End Firmware.

(** ** The command table *)

(** The handlers a table entry can point to. *)
Inductive handler_t : Type :=
| fn_help_handler
| fn_halt_handler
| fn_past_format_handler
| fn_past_read_handler
| fn_past_write_handler
| fn_past_erase_handler
| fn_past_dump_handler
| fn_temperature_handler
| fn_temperature_alert_handler
| fn_rfm_handler
| fn_rtc_handler
| fn_power_handler.

Record cli_command_t : Type := Command {
  cmd : string;
  handler : handler_t;
  min_arg : Z;
  max_arg : Z;
  help : string;
  usage : string
}.

Definition commands : list cli_command_t :=
  [ Command "help" fn_help_handler 0 0 "Print help" EmptyString;
    Command "halt" fn_halt_handler 0 64 "Halt the system" "<arg> ... <arg>";
    Command "pastformat" fn_past_format_handler 0 0 "Format past" EmptyString;
    Command "pastread" fn_past_read_handler 1 1 "Read unit from past" "<unit>";
    Command "pastwrite" fn_past_write_handler 2 2 "Write unit to past" "<unit> <data>";
    Command "pasterase" fn_past_erase_handler 1 1 "Erase unit from past" "<unit>";
    Command "pastdump" fn_past_dump_handler 0 1 "Dump past" "[<size>]";
    Command "temp" fn_temperature_handler 0 0 "Show TMP102 temperature" EmptyString;
    Command "tempalert" fn_temperature_alert_handler 0 2 "Show TMP102 alert" EmptyString;
    Command "rfm" fn_rfm_handler 0 3 "Handle RFM69" EmptyString;
    Command "rtc" fn_rtc_handler 0 0 "Handle RTC" EmptyString;
    Command "power" fn_power_handler 1 1 "Handle low power mode" "<low | normal>" ].

(** Modelled from the spec: the dispatcher inside [cli_run] (cli.c, not part
    of main.c).  Section 4.4: the first token is looked up in the table by
    exact string match, first match wins. *)
Fixpoint find_command (name : string) (table : list cli_command_t)
    : option cli_command_t :=
  match table with
  | [] => None
  | c :: rest => if streq name (cmd c) then Some c else find_command name rest
  end.

(** Modelled from the spec: the three outcomes section 4.4 gives the
    dispatcher (unknown command, usage error, handler invoked as
    [handler(argc, tokens)]), and the case of no token at all, on which the
    spec is silent. *)
Inductive dispatch : Type :=
| NoTokens
| UnknownCommand (token : string)
| UsageError (usage : string)
| Invoke (h : handler_t) (argc : Z) (argv : list string).

(** Modelled from the spec: the arity check of the dispatcher, which main.c
    does not contain.  Section 4.4: with [argc] the number of tokens, the
    handler is invoked as [handler(argc, tokens)] when [argc - 1] lies in
    [[min_arg, max_arg]] of the matched entry; otherwise a usage error with
    the entry's usage string is reported and the handler does not run. *)
Definition arity_ok (c : cli_command_t) (argc : Z) : bool :=
  (min_arg c <=? argc - 1) && (argc - 1 <=? max_arg c).

(** Modelled from the spec: the decision of [dispatch(table, tokens)] of
    section 4.4, built from [find_command] and [arity_ok]. *)
Definition cli_dispatch (table : list cli_command_t) (tokens : list string)
    : dispatch :=
  match tokens with
  | [] => NoTokens
  | name :: _ =>
      match find_command name table with
      | None => UnknownCommand name
      | Some c =>
          let argc := Z.of_nat (length tokens) in
          if arity_ok c argc then Invoke (handler c) argc tokens
          else UsageError (usage c)
      end
  end.

(** ** The foreground loop of main *)

Definition MAX_LINE_LENGTH : Z := 80.

(** The locals of [main]: the write index [i] and the [line] buffer. *)
Record console : Type := Console {
  idx : Z;
  line : list Z
}.

(** The C string a [char *] to the buffer denotes: the bytes before the
    first NUL. *)
Fixpoint c_string (buf : list Z) : list Z :=
  match buf with
  | [] => []
  | b :: rest => if b =? 0 then [] else b :: c_string rest
  end.

Section Console.
Context {hw_t : Type} {board : Board hw_t}.

(** [cli_run(commands, n, line)] lives in cli.c: it receives the buffer,
    may split it in place, and runs at most one handler. *)
Variable cli_run : list Z -> M hw_t (list Z).

Abbreviation M := (M hw_t).
Local Open Scope fw_scope.

Definition call_cli_run (buf : list Z) : M (list Z) :=
  emit (Call (c_cli_run (c_string buf))) ;;
  cli_run buf.

(** The body of [while (ringbuf_get(&rx_buf, &b))] for one value [b]. *)
Definition on_char (b : Z) (st : console) : M console :=
  if b =? 13 then
    ret st
  else if b =? 10 then
    dbg_printf nl ;;
    st' ← (if 0 <? idx st then
             buf ← call_cli_run (<[Z.to_nat (idx st) := 0]> (line st));
             ret (Console 0 (<[0%nat := 0]> buf))
           else ret st);
    dbg_printf "% " ;;
    ret st'
  else if idx st <? MAX_LINE_LENGTH - 2 then
    dbg_printf (fmt_c (Z.land b 255)) ;;
    ret (Console (u32 (idx st + 1)) (<[Z.to_nat (idx st) := lo8 b]> (line st)))
  else
    ret st.

(** The inner loop, for the values [ringbuf_get] hands out before it
    reports the buffer empty. *)
Fixpoint poll (bs : list Z) (st : console) : M console :=
  match bs with
  | [] => ret st
  | b :: rest => st' ← on_char b st; poll rest st'
  end.

(** The tail of one iteration of [while(1)]: the low-power wait. *)
Definition low_power_wait : M unit :=
  lp ← get_low_power;
  if lp then
    dbg_printf "." ;;
    ext c_pwr_cr_set_lpsdsr pwr_cr_set_lpsdsr ;;
    ext c_pwr_set_stop_mode pwr_set_stop_mode ;;
    ext c_wfi wfi
  else
    ret tt.

(** One iteration of [while(1)]: [bs] are the values the ring buffer
    yields during this iteration's poll. *)
Definition main_iteration (bs : list Z) (st : console) : M console :=
  st' ← poll bs st;
  low_power_wait ;;
  ret st'.

(** The loop for as many iterations as there are polls. *)
Fixpoint main_loop (polls : list (list Z)) (st : console) : M console :=
  match polls with
  | [] => ret st
  | bs :: rest => st' ← main_iteration bs st; main_loop rest st'
  end.

End Console.

(** ** A bench board *)

(** Modelled from the spec: a board on which the embedding runs on concrete
    inputs.  The drivers main.c links against (past.c, tick.c, rfm69.c, hw.c)
    are not part of main.c; the bench follows the contracts of section 6: the
    persistent store keeps units by id, [format] empties it, a write replaces
    the unit, a read finds the latest data or reports not-found.  Whether
    [format], [init] and a write succeed is scripted by three flags, the tick
    service and the LED are one flag each, and [waits] counts the wait
    instructions executed. *)
Record bench : Type := Bench {
  format_ok : bool;
  init_ok : bool;
  write_ok : bool;
  units : list (Z * list Z);
  ticking : bool;
  led : bool;
  waits : Z
}.

Fixpoint find_unit (id : Z) (us : list (Z * list Z)) : option (list Z) :=
  match us with
  | [] => None
  | (k, d) :: rest => if k =? id then Some d else find_unit id rest
  end.

(** Unit [id] is shown at address [4096 * (id + 1)]. *)
Definition bench_load8 (h : bench) (a : Z) : Z :=
  match find_unit (a / 4096 - 1) (units h) with
  | Some d => nth (Z.to_nat (a mod 4096)) d 255
  | None => 255
  end.

Definition bench_load_bytes (h : bench) (a len : Z) : list Z :=
  map (fun k => bench_load8 h (a + Z.of_nat k)) (seq 0 (Z.to_nat len)).

Definition bench_load32 (h : bench) (a : Z) : Z :=
  bench_load8 h a + 256 * bench_load8 h (a + 1)
  + 65536 * bench_load8 h (a + 2) + 16777216 * bench_load8 h (a + 3).

Definition string_of_bytes (l : list Z) : string :=
  string_of_list_ascii (map char_of l).

Definition digit_of (c : ascii) : option Z :=
  let n := Z.of_N (N_of_ascii c) in
  if (48 <=? n) && (n <=? 57) then Some (n - 48) else None.

Fixpoint atoi_digits (acc : Z) (s : string) : Z :=
  match s with
  | EmptyString => acc
  | String c rest =>
      match digit_of c with
      | Some d => atoi_digits (10 * acc + d) rest
      | None => acc
      end
  end.

Definition bench_atoi (s : string) : Z :=
  match s with
  | String "-" rest => - atoi_digits 0 rest
  | String "+" rest => atoi_digits 0 rest
  | _ => atoi_digits 0 s
  end.

Definition set_units (us : list (Z * list Z)) (h : bench) : bench :=
  Bench (format_ok h) (init_ok h) (write_ok h) us (ticking h) (led h) (waits h).

Definition set_ticking (b : bool) (h : bench) : bench :=
  Bench (format_ok h) (init_ok h) (write_ok h) (units h) b (led h) (waits h).

Definition set_led (b : bool) (h : bench) : bench :=
  Bench (format_ok h) (init_ok h) (write_ok h) (units h) (ticking h) b (waits h).

Definition add_wait (h : bench) : bench :=
  Bench (format_ok h) (init_ok h) (write_ok h) (units h) (ticking h) (led h)
        (waits h + 1).

(** Modelled from the spec: the drivers behind [Board] on the bench, after
    the contracts of section 6; the radio is absent and the alert pin reads
    high. *)
#[export] Instance bench_board : Board bench := {
  unit_id := fun p =>
    match p with
    | past_rfm_node_id => 1
    | past_rfm_net_id => 2
    | past_rfm_gateway_id => 3
    | past_rfm_max_power => 4
    | past_rfm_key => 5
    end;
  atoi := bench_atoi;
  systick_init := set_ticking true;
  systick_deinit := set_ticking false;
  past_format := fun h =>
    if format_ok h then (true, set_units [] h) else (false, h);
  past_init := fun h => (init_ok h, h);
  past_read_unit := fun id h =>
    match find_unit id (units h) with
    | Some d => Some (4096 * (id + 1), Z.of_nat (length d))
    | None => None
    end;
  past_write_unit := fun id data h =>
    if write_ok h then (true, set_units ((id, data) :: units h) h)
    else (false, h);
  gpio_get_temp_alert := fun _ => 1;
  hw_set_led := set_led;
  delay_ms := fun _ h => h;
  load8 := bench_load8;
  load32 := bench_load32;
  load_cstr := fun h a => string_of_bytes (c_string (bench_load_bytes h a 64));
  load_bytes := bench_load_bytes;
  rfm69_setResetPin := fun h => h;
  rfm69_reset := fun h => h;
  rfm69_init := fun h => (false, h);
  rfm69_sleep := fun h => h;
  rfm69_setPowerDBm := fun _ h => h;
  rfm69_setCSMA := fun _ h => h;
  rfm69_setAutoReadRSSI := fun _ h => h;
  rfm69_setAESEncryption := fun _ h => h;
  rfm69link_setNodeId := fun _ h => h;
  rfm69link_setNetworkId := fun _ h => h;
  rfm69link_sendFrame := fun _ _ h => ((0, 0), h);
  pwr_cr_set_lpsdsr := fun h => h;
  pwr_set_stop_mode := fun h => h;
  wfi := add_wait
}.

(** The bench after reset: tick service running, store empty. *)
Definition bench0 : bench := Bench true true true [] true false 0.

(** A bench whose store refuses to format but opens all the same. *)
Definition bench_unformattable : bench := Bench false true true [] true false 0.

(** The firmware state when the foreground loop is entered. *)
Definition world0 (h : bench) : world bench := World false h [].

(** [line[0] = 0]; the rest of the array is whatever the stack held. *)
Definition console0 : console := Console 0 (repeat 0 80).

(** A stand-in for [cli_run] (cli.c is not part of main.c) that returns at
    once: it leaves the buffer as it is and runs no handler.  What the loop
    does around the call does not depend on it. *)
Definition cli_run_idle : list Z -> M bench (list Z) := fun buf => ret buf.

(** The trace at which a piece of code left the firmware. *)
Definition final_trace {hw_t A : Type} (o : outcome hw_t A) : list event :=
  match o with
  | Ret _ w => trace w
  | Halted c => trace (bworld c)
  end.

(** A character that does not end or punctuate a line: neither CR nor LF. *)
Definition plain (b : Z) : Prop := b <> 13 /\ b <> 10.

(** The echo of the characters [cs], as the foreground loop prints it. *)
Definition echo (cs : list Z) : list event :=
  map (fun b => Print (fmt_c (Z.land b 255))) cs.

(** The numbered echo of the tokens [argv], counted from [k], as
    [halt_handler] prints it. *)
Fixpoint halt_lines (k : Z) (argv : list string) : list event :=
  match argv with
  | [] => []
  | tok :: rest =>
      Print (fmt_d k ++ " '" ++ tok ++ "'" ++ nl) :: halt_lines (k + 1) rest
  end.

(** The events of one low-power wait. *)
Definition wait_events : list event :=
  [Print "."; Call c_pwr_cr_set_lpsdsr; Call c_pwr_set_stop_mode; Call c_wfi].

(** The console after 78 letters [a] were typed at the prompt. *)
Definition console_full : console := Console 78 (repeat 97 78 ++ [0; 0]).

(** ** help and the remaining store handlers *)

(** The entry [commands[i]] reads when [i] is past the table; the loop of
    [help_handler] never gets there. *)
Definition no_command : cli_command_t :=
  Command EmptyString fn_help_handler 0 0 EmptyString EmptyString.

Section StoreHandlers.
Context {hw_t : Type} {board : Board hw_t}.
Local Open Scope fw_scope.

(** *** help_handler *)

Definition help_handler (argc : Z) (argv : list string) : M hw_t unit :=
  for_u32 (Z.of_nat (length commands)) (fun i =>
    let c := nth (Z.to_nat i) commands no_command in
    dbg_printf (cmd c ++ "    " ++ help c ++ nl)).

(** *** past_read_handler *)

Definition past_read_handler (argc : Z) (argv : list string) : M hw_t unit :=
  let id := u32 (atoi (arg argv 1)) in
  found ← ext_q (c_past_read_unit id) (past_read_unit id);
  match found with
  | Some (data, length) =>
      s ← peek (fun h => load_cstr h data);
      dbg_printf ("'" ++ s ++ "' (" ++ fmt_d length ++ " bytes)" ++ nl) ;;
      dump_mem data length
  | None =>
      dbg_printf ("Unit " ++ fmt_d id ++ " not found" ++ nl)
  end.

(** *** past_write_handler

    [strlen(argv[2]) + 1] is computed in [size_t]; a string and its
    terminator fit in the address space, so the sum does not wrap. *)

Definition past_write_handler (argc : Z) (argv : list string) : M hw_t unit :=
  let id := u32 (atoi (arg argv 1)) in
  let len := strlen (arg argv 2) + 1 in
  ok ← write_unit id (bytes_at (arg argv 2) len);
  if ok then
    dbg_printf ("Wrote unit " ++ fmt_d id ++ " (" ++ fmt_d len ++ " bytes)" ++ nl)
  else
    dbg_printf ("Failed to write unit " ++ fmt_d id ++ nl).

(** *** past_dump_handler

    [blocks0] and [blocks1] are [g_past.blocks[0]] and [g_past.blocks[1]],
    [past_block_size] is the address of the linker symbol of that name. *)

Definition past_dump_handler (blocks0 blocks1 past_block_size : Z)
    (argc : Z) (argv : list string) : M hw_t unit :=
  let dump_size :=
    if argc =? 2 then u32 (atoi (arg argv 1)) else past_block_size in
  dbg_printf ("Past block 0:" ++ nl) ;;
  dump_mem blocks0 dump_size ;;
  dbg_printf (nl ++ "Past block 1:" ++ nl) ;;
  dump_mem blocks1 dump_size.

(** What [dump_mem] prints for the byte at offset [i]: the row header when
    [i] opens a row, and the byte. *)
Definition dump_cell (h : hw_t) (address i : Z) : list event :=
  (if i mod LINE_WIDTH =? 0
   then [Print nl; Print ("  " ++ fmt_08x (u32 (address + i)) ++ " : ")]
   else [])
  ++ [Print (" " ++ fmt_02x (load8 h (u32 (address + i))))].

(** Everything [dump_mem] prints for a range, on memory [h]. *)
Definition dump_events (h : hw_t) (address length : Z) : list event :=
  [Print (fmt_08x address ++ "..." ++ fmt_08x (u32 (address + length - 1)) ++ ":")]
  ++ flat_map (fun k => dump_cell h address (Z.of_nat k)) (seq 0 (Z.to_nat length))
  ++ [Print nl].

End StoreHandlers.

(** ** Reference notions for the properties *)

(** The lines a byte stream amounts to, [cur] being the characters of the
    line in progress: carriage returns vanish, a line feed closes the line
    unless it is empty, a line takes 78 characters at most, and a closed
    line reads as a C string. *)
Fixpoint assemble (cur : list Z) (bs : list Z) : list (list Z) :=
  match bs with
  | [] => []
  | b :: rest =>
      if b =? 13 then assemble cur rest
      else if b =? 10 then
        match cur with
        | [] => assemble [] rest
        | _ :: _ => c_string cur :: assemble [] rest
        end
      else if (length cur <? 78)%nat then assemble (cur ++ [lo8 b]) rest
      else assemble cur rest
  end.

(** The console holds the characters [cur] of the line in progress. *)
Definition holds (st : console) (cur : list Z) : Prop :=
  idx st = Z.of_nat (length cur)
  /\ take (length cur) (line st) = cur
  /\ Z.of_nat (length (line st)) = MAX_LINE_LENGTH
  /\ (length cur <= 78)%nat.

(** A [cli_run] that always returns, leaves the buffer its length and does
    not dispatch lines of its own. *)
Definition returns_quietly {hw_t : Type}
    (cli_run : list Z -> M hw_t (list Z)) : Prop :=
  forall buf w, exists buf' w',
    cli_run buf w = Ret buf' w'
    /\ length buf' = length buf
    /\ dispatched (trace w') = dispatched (trace w).

(** A piece of code that leaves the power flag as it found it, whether it
    returns or halts. *)
Definition keeps_power {hw_t A : Type} (m : M hw_t A) : Prop :=
  forall w,
    match m w with
    | Ret _ w' => low_power w' = low_power w
    | Halted c => low_power (bworld c) = low_power w
    end.

(** One blink of the LED, and one period of the halt signal. *)
Definition blink_once : list event :=
  [Call (c_hw_set_led true); Call (c_delay_ms 100);
   Call (c_hw_set_led false); Call (c_delay_ms 100)].

Definition blink_period (n : nat) : list event :=
  concat (repeat blink_once n) ++ [Call (c_delay_ms 1000)].

(** * Properties *)

(** Unfolds the primitives of the firmware monad and projects the records
    they build. *)
Ltac run_fw :=
  unfold bind, ret, dbg_printf, emit, ext, ext_r, ext_q, peek,
    set_low_power, get_low_power, log, set_hw;
  cbn [low_power hw trace].

Section HandlerFacts.
Context {hw_t : Type} {board : Board hw_t}.
Implicit Types (w : world hw_t) (argv : list string).

Lemma streq_ne (a b : string) : a <> b -> streq a b = false.
Proof. intros Hne. apply String.eqb_neq. exact Hne. Qed.

(** C4.  [power low] stops the tick service and sets the flag, [power
    normal] restarts the service and clears the flag, and any other
    argument only prints the illegal-argument error: the flag, the hardware
    and the list of outside calls stay as they were. *)
Theorem power_handler_modes (argc : Z) (name other : string)
    (rest : list string) w :
  other <> "low"%string ->
  other <> "normal"%string ->
  power_handler argc (name :: "low"%string :: rest) w
    = Ret tt (World true (systick_deinit (hw w))
                (trace w ++ [Call c_systick_deinit; Print ("OK" ++ nl)]))
  /\ power_handler argc (name :: "normal"%string :: rest) w
    = Ret tt (World false (systick_init (hw w))
                (trace w ++ [Call c_systick_init; Print ("OK" ++ nl)]))
  /\ power_handler argc (name :: other :: rest) w
    = Ret tt (World (low_power w) (hw w)
                (trace w ++ [Print ("Error: illegal argument" ++ nl)])).
Proof.
  intros Hlow Hnormal. repeat split.
  - unfold power_handler, bind, ext, set_low_power, dbg_printf, emit, log, set_hw.
    cbn. now rewrite <- app_assoc.
  - unfold power_handler, bind, ext, set_low_power, dbg_printf, emit, log, set_hw.
    cbn. now rewrite <- app_assoc.
  - unfold power_handler. cbn [arg nth].
    rewrite (streq_ne _ _ Hlow), (streq_ne _ _ Hnormal).
    reflexivity.
Qed.

(** C9.  [past_format_handler] calls [past_init] after [past_format]
    whatever [past_format] answered: the trace of one invocation is the
    format call, the failure message when the format failed, the init call
    and the verdict of the init.  With a failed format and a successful
    init the transcript holds the failure message and OK. *)
Theorem past_format_handler_always_inits (argc : Z) argv w
    (formatted opened : bool) (h1 h2 : hw_t) :
  past_format (hw w) = (formatted, h1) ->
  past_init h1 = (opened, h2) ->
  past_format_handler argc argv w
    = Ret tt (World (low_power w) h2
                (trace w
                 ++ [Call c_past_format]
                 ++ (if formatted then []
                     else [Print ("Past formatting failed" ++ nl)])
                 ++ [Call c_past_init;
                     Print (if opened then "OK" ++ nl else "ERROR" ++ nl)])).
Proof.
  intros Hformat Hinit.
  unfold past_format_handler. run_fw.
  rewrite Hformat. cbn [negb hw].
  destruct formatted; cbn [negb hw]; rewrite Hinit;
    destruct opened; cbn [low_power hw trace app];
    rewrite <- ?app_assoc; reflexivity.
Qed.

(** C8.  [tempalert] with exactly one argument passes the arity check of
    its table entry (0 to 2 arguments), and the handler, entered with
    [argc = 2], takes the default branch of its switch: it prints nothing,
    calls nothing and changes nothing. *)
Theorem tempalert_one_argument_is_silent (a : string) w :
  (exists c, find_command "tempalert" commands = Some c
             /\ handler c = fn_temperature_alert_handler
             /\ min_arg c = 0 /\ max_arg c = 2
             /\ arity_ok c 2 = true)
  /\ cli_dispatch commands ["tempalert"%string; a]
     = Invoke fn_temperature_alert_handler 2 ["tempalert"%string; a]
  /\ temperature_alert_handler 2 ["tempalert"%string; a] w = Ret tt w.
Proof.
  split; [| split].
  - eexists. split; [reflexivity |]. repeat split.
  - reflexivity.
  - reflexivity.
Qed.

(** C10.  [dump_mem] with length 0 prints the summary line and the closing
    newline and no data row; the end of the printed range is
    [address - 1] modulo 2^32, which for address 0 reads ffffffff. *)
Theorem dump_mem_empty_range_wraps (address : Z) w :
  dump_mem address 0 w
    = Ret tt (World (low_power w) (hw w)
                (trace w
                 ++ [Print (fmt_08x address ++ "..."
                            ++ fmt_08x ((address - 1) mod 2 ^ 32) ++ ":");
                     Print nl]))
  /\ dump_mem 0 0 w
    = Ret tt (World (low_power w) (hw w)
                (trace w ++ [Print "00000000...ffffffff:"; Print nl])).
Proof.
  split.
  - unfold dump_mem, for_u32. change (Z.to_nat 0) with 0%nat.
    cbn [for_loop]. run_fw. unfold u32.
    replace (address + 0 - 1) with (address - 1) by lia.
    rewrite <- ?app_assoc. reflexivity.
  - unfold dump_mem, for_u32. change (Z.to_nat 0) with 0%nat.
    cbn [for_loop]. run_fw.
    rewrite <- ?app_assoc. reflexivity.
Qed.

Lemma bytes_of_string_length (s : string) :
  length (bytes_of_string s) = String.length s.
Proof.
  unfold bytes_of_string. rewrite length_map.
  induction s as [| c s IH]; cbn; [reflexivity | now rewrite IH].
Qed.

Lemma bytes_at_whole (s : string) (n : Z) :
  strlen s = n -> bytes_at s n = bytes_of_string s.
Proof.
  intros <-. unfold bytes_at, strlen. rewrite Nat2Z.id.
  rewrite <- (bytes_of_string_length s).
  now rewrite take_app_length.
Qed.

(** C7.  [rfm key <k>]: when [k] is not 16 characters long the handler
    prints the key-length error and does nothing else (no call leaves
    main.c and the hardware state is untouched); when [k] is 16 characters
    long the handler issues exactly one store write, of the 16 bytes of
    [k], to the AES key unit, and prints the store's verdict. *)
Theorem rfm_key_length_checked (name bad good : string) w :
  strlen bad <> 16 ->
  strlen good = 16 ->
  rfm_handler 3 [name; "key"%string; bad] w
    = Ret tt (World (low_power w) (hw w)
                (trace w ++ [Print ("ERROR: key must be 16 bytes" ++ nl)]))
  /\ length (bytes_of_string good) = 16%nat
  /\ rfm_handler 3 [name; "key"%string; good] w
    = let '(ok, h') := past_write_unit (unit_id past_rfm_key)
                         (bytes_of_string good) (hw w) in
      Ret tt (World (low_power w) h'
                (trace w
                 ++ [Call (c_past_write_unit (unit_id past_rfm_key)
                             (bytes_of_string good));
                     Print (if ok then "OK" ++ nl else "ERROR" ++ nl)])).
Proof.
  intros Hbad Hgood. split; [| split].
  - unfold rfm_handler. cbn [arg nth].
    change (3 =? 1) with false. change (3 =? 2) with false.
    change (3 =? 3) with true.
    change (streq "key" "id") with false.
    change (streq "key" "net") with false.
    change (streq "key" "gw") with false.
    change (streq "key" "pwr") with false.
    change (streq "key" "key") with true.
    cbv iota.
    apply Z.eqb_neq in Hbad. rewrite Hbad. reflexivity.
  - rewrite bytes_of_string_length. unfold strlen in Hgood. lia.
  - unfold rfm_handler. cbn [arg nth].
    change (3 =? 1) with false. change (3 =? 2) with false.
    change (3 =? 3) with true.
    change (streq "key" "id") with false.
    change (streq "key" "net") with false.
    change (streq "key" "gw") with false.
    change (streq "key" "pwr") with false.
    change (streq "key" "key") with true.
    cbv iota.
    pose proof Hgood as Heq. apply Z.eqb_eq in Heq. rewrite Heq.
    cbn [negb].
    unfold rfm_set_str, write_unit. run_fw.
    rewrite (bytes_at_whole _ _ Hgood).
    destruct (past_write_unit _ _ _) as [ok h'].
    destruct ok; cbn [low_power hw trace];
      rewrite <- ?app_assoc; reflexivity.
Qed.

End HandlerFacts.

Lemma power_handler_modes_witness :
  power_handler 2 ["power"; "low"]%string (world0 bench0)
    = Ret tt (World true (set_ticking false bench0)
                [Call c_systick_deinit; Print ("OK" ++ nl)])
  /\ power_handler 2 ["power"; "normal"]%string (world0 bench0)
    = Ret tt (World false bench0
                [Call c_systick_init; Print ("OK" ++ nl)])
  /\ power_handler 2 ["power"; "sideways"]%string (world0 bench0)
    = Ret tt (World false bench0 [Print ("Error: illegal argument" ++ nl)]).
Proof.
  exact (power_handler_modes (board := bench_board) 2 "power" "sideways" []
           (world0 bench0) ltac:(discriminate) ltac:(discriminate)).
Defined.

Lemma past_format_handler_always_inits_witness :
  transcript (final_trace
    (past_format_handler 1 ["pastformat"%string] (world0 bench_unformattable)))
  = [("Past formatting failed" ++ nl)%string; ("OK" ++ nl)%string].
Proof.
  rewrite (past_format_handler_always_inits (board := bench_board) 1
             ["pastformat"%string] (world0 bench_unformattable)
             false true bench_unformattable bench_unformattable
             eq_refl eq_refl).
  reflexivity.
Defined.

Lemma rfm_key_length_checked_witness :
  calls (final_trace
    (rfm_handler 3 ["rfm"; "key"; "tooshort"]%string (world0 bench0))) = []
  /\ calls (final_trace
    (rfm_handler 3 ["rfm"; "key"; "0123456789abcdef"]%string (world0 bench0)))
     = [c_past_write_unit 5
          [48; 49; 50; 51; 52; 53; 54; 55; 56; 57; 97; 98; 99; 100; 101; 102]].
Proof.
  destruct (rfm_key_length_checked (board := bench_board) "rfm" "tooshort"
              "0123456789abcdef" (world0 bench0)
              ltac:(discriminate) eq_refl) as (Hbad & _ & Hgood).
  rewrite Hbad, Hgood. split; reflexivity.
Defined.

Section ConsoleFacts.
Context {hw_t : Type} {board : Board hw_t}.
Variable cli_run : list Z -> M hw_t (list Z).
Implicit Types (w : world hw_t) (st : console) (cs bs : list Z).

Lemma u32_small (z : Z) : 0 <= z < 2 ^ 32 -> u32 z = z.
Proof. intros Hz. unfold u32. now apply Z.mod_small. Qed.

Lemma c_string_terminated (l r : list Z) :
  Forall (fun b => b <> 0) l -> c_string (l ++ 0 :: r) = l.
Proof.
  induction 1 as [| b l Hb _ IH]; cbn; [reflexivity |].
  apply Z.eqb_neq in Hb. rewrite Hb. now rewrite IH.
Qed.

Lemma c_string_cleared (buf : list Z) : c_string (<[0%nat := 0]> buf) = [].
Proof. destruct buf; reflexivity. Qed.

Lemma poll_app bs1 bs2 st w :
  poll cli_run (bs1 ++ bs2) st w
  = bind (poll cli_run bs1 st) (poll cli_run bs2) w.
Proof.
  revert st w. induction bs1 as [| b bs1 IH]; intros st w; cbn [poll app].
  - reflexivity.
  - unfold bind in *.
    destruct (on_char cli_run b st w) as [st' w' | c]; [| reflexivity].
    apply IH.
Qed.

(** A carriage return is skipped. *)
Lemma on_char_cr st w : on_char cli_run 13 st w = Ret st w.
Proof. reflexivity. Qed.

(** A plain character below the bound is echoed and stored. *)
Lemma on_char_stored (b : Z) st w :
  plain b -> 0 <= idx st < MAX_LINE_LENGTH - 2 ->
  on_char cli_run b st w
  = Ret (Console (idx st + 1) (<[Z.to_nat (idx st) := lo8 b]> (line st)))
        (World (low_power w) (hw w)
           (trace w ++ [Print (fmt_c (Z.land b 255))])).
Proof.
  intros [Hcr Hlf] Hidx. unfold on_char.
  apply Z.eqb_neq in Hcr, Hlf. rewrite Hcr, Hlf.
  destruct (Z.ltb_spec (idx st) (MAX_LINE_LENGTH - 2)) as [_ | Hge]; [| lia].
  run_fw. rewrite u32_small; [reflexivity |].
  unfold MAX_LINE_LENGTH in Hidx. lia.
Qed.

(** A plain character at the bound changes nothing at all. *)
Lemma on_char_dropped (b : Z) st w :
  plain b -> MAX_LINE_LENGTH - 2 <= idx st ->
  on_char cli_run b st w = Ret st w.
Proof.
  intros [Hcr Hlf] Hidx. unfold on_char.
  apply Z.eqb_neq in Hcr, Hlf. rewrite Hcr, Hlf.
  destruct (Z.ltb_spec (idx st) (MAX_LINE_LENGTH - 2)) as [Hlt | _]; [lia |].
  reflexivity.
Qed.

(** Plain characters that fit are echoed and stored one after the other. *)
Lemma poll_stored cs : forall (pre post : list Z) w,
  Forall plain cs ->
  (length pre + length cs <= 78)%nat ->
  (length cs <= length post)%nat ->
  poll cli_run cs (Console (Z.of_nat (length pre)) (pre ++ post)) w
  = Ret (Console (Z.of_nat (length pre + length cs))
                 (pre ++ map lo8 cs ++ drop (length cs) post))
        (World (low_power w) (hw w) (trace w ++ echo cs)).
Proof.
  induction cs as [| b cs IH]; intros pre post w Hplain Hfit Hroom.
  - cbn [poll length map drop echo]. unfold ret.
    rewrite Nat.add_0_r, app_nil_r. now destruct w.
  - cbn [length] in Hfit, Hroom.
    destruct post as [| p post]; [cbn in Hroom; lia |].
    inversion Hplain as [| ? ? Hb Hcs]; subst.
    cbn [poll]. unfold bind.
    rewrite on_char_stored; [| assumption | cbn [idx]; unfold MAX_LINE_LENGTH; lia].
    cbn [idx line]. rewrite Nat2Z.id.
    replace (<[length pre := lo8 b]> (pre ++ p :: post))
      with ((pre ++ [lo8 b]) ++ post).
    2:{ rewrite <- (Nat.add_0_r (length pre)) at 1.
        rewrite insert_app_r. now rewrite <- app_assoc. }
    replace (Z.of_nat (length pre) + 1) with (Z.of_nat (length (pre ++ [lo8 b]))).
    2:{ rewrite length_app. cbn [length]. lia. }
    rewrite IH; [| assumption | rewrite length_app; cbn [length]; lia
                 | cbn [length] in Hroom; lia].
    cbn [low_power hw trace length map drop echo].
    rewrite length_app. cbn [length].
    f_equal; [f_equal; [f_equal; lia | now rewrite <- app_assoc] |].
    f_equal. now rewrite <- app_assoc.
Qed.

(** Once a character made the loop enter [blinken_halt], the rest of the
    poll and every later iteration are never run. *)
Lemma poll_halted (b : Z) bs st w (c : blink_config hw_t) :
  on_char cli_run b st w = Halted c ->
  poll cli_run (b :: bs) st w = Halted c.
Proof. intros Hhalt. cbn [poll]. unfold bind. now rewrite Hhalt. Qed.

Lemma main_loop_halted bs (polls : list (list Z)) st w (c : blink_config hw_t) :
  poll cli_run bs st w = Halted c ->
  main_loop cli_run (bs :: polls) st w = Halted c.
Proof.
  intros Hhalt. cbn [main_loop]. unfold main_iteration, bind.
  now rewrite Hhalt.
Qed.

(** A line feed on a line that holds characters: the line is terminated,
    handed to [cli_run], and cleared when [cli_run] returns. *)
Lemma on_char_lf_dispatch st w :
  0 < idx st ->
  on_char cli_run 10 st w
  = let buf := <[Z.to_nat (idx st) := 0]> (line st) in
    match cli_run buf
            (World (low_power w) (hw w)
               (trace w ++ [Print nl; Call (c_cli_run (c_string buf))])) with
    | Ret buf' w2 =>
        Ret (Console 0 (<[0%nat := 0]> buf'))
            (World (low_power w2) (hw w2) (trace w2 ++ [Print "% "]))
    | Halted c => Halted c
    end.
Proof.
  intros Hidx. unfold on_char. change (10 =? 13) with false.
  change (10 =? 10) with true. cbv iota.
  destruct (Z.ltb_spec 0 (idx st)) as [_ | Hle]; [| lia].
  unfold call_cli_run. run_fw. rewrite <- app_assoc. cbn [app].
  destruct (cli_run _ _) as [buf' w2 | c]; reflexivity.
Qed.

(** A line feed on an empty line: a newline and the prompt, no dispatch. *)
Lemma on_char_lf_empty (l : list Z) w :
  on_char cli_run 10 (Console 0 l) w
  = Ret (Console 0 l)
        (World (low_power w) (hw w) (trace w ++ [Print nl; Print "% "])).
Proof.
  unfold on_char. cbn [idx]. change (10 =? 13) with false.
  change (10 =? 10) with true. change (0 <? 0) with false. cbv iota.
  run_fw. now rewrite <- app_assoc.
Qed.

(** A line of plain characters typed at an empty prompt and ended by a
    line feed, when the characters fit. *)
Lemma poll_line cs (l : list Z) w :
  Forall plain cs ->
  (0 < length cs <= 78)%nat ->
  (length cs < length l)%nat ->
  let buf := map lo8 cs ++ 0 :: drop (S (length cs)) l in
  poll cli_run (cs ++ [10]) (Console 0 l) w
  = match cli_run buf
            (World (low_power w) (hw w)
               (trace w ++ echo cs
                ++ [Print nl; Call (c_cli_run (c_string buf))])) with
    | Ret buf' w2 =>
        Ret (Console 0 (<[0%nat := 0]> buf'))
            (World (low_power w2) (hw w2) (trace w2 ++ [Print "% "]))
    | Halted c => Halted c
    end.
Proof.
  intros Hplain Hlen Hroom buf.
  rewrite poll_app. unfold bind.
  pose proof (poll_stored cs [] l w Hplain) as Hstored.
  cbn [length app Nat.add] in Hstored. change (Z.of_nat 0) with 0 in Hstored.
  rewrite Hstored by lia. clear Hstored.
  cbn [poll]. unfold bind.
  rewrite on_char_lf_dispatch by (cbn [idx]; lia).
  cbn [idx line low_power hw trace]. rewrite Nat2Z.id.
  assert (Hbuf : <[length cs := 0]> (map lo8 cs ++ drop (length cs) l) = buf).
  { subst buf.
    rewrite <- (length_map lo8 cs) at 1.
    rewrite <- (Nat.add_0_r (length (map lo8 cs))).
    rewrite insert_app_r. f_equal.
    destruct (drop (length cs) l) as [| x r] eqn:Hdrop.
    - apply (f_equal (@length Z)) in Hdrop.
      rewrite length_drop in Hdrop. cbn [length] in Hdrop. lia.
    - cbn. f_equal.
      replace (S (length cs)) with (length cs + 1)%nat by lia.
      rewrite <- drop_drop, Hdrop. reflexivity. }
  rewrite Hbuf. rewrite <- app_assoc.
  destruct (cli_run _ _) as [buf' w2 | c]; run_fw; reflexivity.
Qed.

(** C1 (as amended).  A line of exactly [MAX_LINE_LENGTH - 2] plain
    characters typed at an empty prompt and ended by a line feed is handed
    to [cli_run] whole: the buffer passed holds the low bytes of all the
    characters followed by the terminator, the C string it denotes is the
    whole line when no character has a zero low byte, and every character
    was echoed before the dispatch. *)
Theorem full_line_dispatched_intact cs st w :
  idx st = 0 ->
  Z.of_nat (length (line st)) = MAX_LINE_LENGTH ->
  Z.of_nat (length cs) = MAX_LINE_LENGTH - 2 ->
  Forall plain cs ->
  let buf := map lo8 cs ++ 0 :: drop (S (length cs)) (line st) in
  take (length cs) buf = map lo8 cs
  /\ buf !! length cs = Some 0
  /\ (Forall (fun b => lo8 b <> 0) cs -> c_string buf = map lo8 cs)
  /\ poll cli_run (cs ++ [10]) st w
     = match cli_run buf
               (World (low_power w) (hw w)
                  (trace w ++ echo cs
                   ++ [Print nl; Call (c_cli_run (c_string buf))])) with
       | Ret buf' w2 =>
           Ret (Console 0 (<[0%nat := 0]> buf'))
               (World (low_power w2) (hw w2) (trace w2 ++ [Print "% "]))
       | Halted c => Halted c
       end.
Proof.
  intros Hidx Hline Hcs Hplain buf. unfold MAX_LINE_LENGTH in *.
  destruct st as [i l]. cbn [idx line] in *. subst i.
  split; [| split; [| split]].
  - subst buf. rewrite <- (length_map lo8 cs) at 1.
    now rewrite take_app_length.
  - subst buf. rewrite lookup_app_r by (rewrite length_map; lia).
    rewrite length_map, Nat.sub_diag. reflexivity.
  - intros Hnz. subst buf. apply c_string_terminated.
    rewrite Forall_map. exact Hnz.
  - apply poll_line; [assumption | lia | lia].
Qed.

(** C2 (as amended).  A line feed received while the line holds at least
    one character terminates the line in place, hands it to [cli_run]
    after the newline, and, when [cli_run] returns, clears the line and
    prints the prompt.  A line feed on an empty line dispatches nothing: it
    prints the newline and the prompt.  A carriage return changes
    nothing. *)
Theorem line_feed_dispatches_nonempty_line st w :
  0 < idx st ->
  (Z.to_nat (idx st) < length (line st))%nat ->
  let buf := <[Z.to_nat (idx st) := 0]> (line st) in
  buf !! Z.to_nat (idx st) = Some 0
  /\ take (Z.to_nat (idx st)) buf = take (Z.to_nat (idx st)) (line st)
  /\ on_char cli_run 10 st w
     = match cli_run buf
               (World (low_power w) (hw w)
                  (trace w ++ [Print nl; Call (c_cli_run (c_string buf))])) with
       | Ret buf' w2 =>
           Ret (Console 0 (<[0%nat := 0]> buf'))
               (World (low_power w2) (hw w2) (trace w2 ++ [Print "% "]))
       | Halted c => Halted c
       end
  /\ (forall buf', c_string (<[0%nat := 0]> buf') = [])
  /\ (forall l, on_char cli_run 10 (Console 0 l) w
                = Ret (Console 0 l)
                      (World (low_power w) (hw w)
                         (trace w ++ [Print nl; Print "% "])))
  /\ on_char cli_run 13 st w = Ret st w.
Proof.
  intros Hidx Hroom buf.
  split; [| split; [| split; [| split; [| split]]]].
  - subst buf. now apply list_lookup_insert_eq.
  - subst buf. now rewrite take_insert_ge.
  - now apply on_char_lf_dispatch.
  - intros buf'. apply c_string_cleared.
  - intros l. apply on_char_lf_empty.
  - apply on_char_cr.
Qed.

(** C3 (as amended).  Once the line holds [MAX_LINE_LENGTH - 2]
    characters, every further plain character is dropped without a trace:
    it is not stored and it is not echoed either, so the line, the index
    and the whole trace are what they were, however many such characters
    arrive before the next terminator. *)
Theorem chars_past_bound_dropped_silently cs st w :
  Forall plain cs ->
  MAX_LINE_LENGTH - 2 <= idx st ->
  poll cli_run cs st w = Ret st w.
Proof.
  revert st w. induction cs as [| b cs IH]; intros st w Hplain Hfull.
  - reflexivity.
  - inversion Hplain as [| ? ? Hb Hcs]; subst.
    cbn [poll]. unfold bind.
    rewrite on_char_dropped by assumption.
    now apply IH.
Qed.

(** C6.  In an iteration whose poll ran to the end, the low-power wait is
    executed exactly when the flag is set at that point: then the marker,
    the two power-control calls and the wait instruction follow the poll,
    in this order and once each; with the flag clear nothing follows the
    poll and the iteration ends without waiting. *)
Theorem wait_iff_low_power bs st w st' w' :
  poll cli_run bs st w = Ret st' w' ->
  exists w'' tail,
    main_iteration cli_run bs st w = Ret st' w''
    /\ trace w'' = trace w' ++ tail
    /\ low_power w'' = low_power w'
    /\ tail = (if low_power w' then wait_events else [])
    /\ hw w'' = (if low_power w'
                 then wfi (pwr_set_stop_mode (pwr_cr_set_lpsdsr (hw w')))
                 else hw w')
    /\ (In (Call c_wfi) tail <-> low_power w' = true)
    /\ (low_power w' = false -> w'' = w').
Proof.
  intros Hpoll. unfold main_iteration, bind. rewrite Hpoll.
  unfold low_power_wait. run_fw.
  destruct w' as [lp h tr]. cbn [low_power hw trace].
  destruct lp.
  - eexists _, wait_events. cbn [low_power hw trace].
    repeat split; try reflexivity.
    + unfold wait_events. now rewrite <- !app_assoc.
    + intros _. unfold wait_events. cbn. tauto.
    + discriminate.
  - exists (World false h tr), []. cbn [low_power hw trace].
    repeat split; try reflexivity.
    + now rewrite app_nil_r.
    + intros [].
    + discriminate.
Qed.

End ConsoleFacts.

Section HaltFacts.
Context {hw_t : Type} {board : Board hw_t}.
Implicit Types (w : world hw_t) (argv : list string) (c : blink_config hw_t).

Lemma transcript_app (t1 t2 : list event) :
  transcript (t1 ++ t2) = transcript t1 ++ transcript t2.
Proof.
  induction t1 as [| [s | k] t1 IH]; cbn; [reflexivity | now rewrite IH | exact IH].
Qed.

Lemma dispatched_app (t1 t2 : list event) :
  dispatched (t1 ++ t2) = dispatched t1 ++ dispatched t2.
Proof.
  induction t1 as [| [s | k] t1 IH]; cbn; [reflexivity | exact IH |].
  destruct k; cbn; try exact IH. now rewrite IH.
Qed.

(** The echo loop of [halt_handler], from token [length pre] on. *)
Lemma halt_echo_loop (rest : list string) : forall (pre : list string) w,
  Z.of_nat (length (pre ++ rest)) < 2 ^ 32 ->
  for_loop (length rest) (Z.of_nat (length pre))
    (fun i => dbg_printf (halt_echo (pre ++ rest) i)) w
  = Ret tt (World (low_power w) (hw w)
              (trace w ++ halt_lines (Z.of_nat (length pre)) rest)).
Proof.
  induction rest as [| tok rest IH]; intros pre w Hlen.
  - cbn [length for_loop halt_lines]. unfold ret.
    rewrite app_nil_r. now destruct w.
  - cbn [length for_loop halt_lines]. unfold bind at 1.
    unfold dbg_printf at 1, emit, log.
    rewrite length_app in Hlen. cbn [length] in Hlen.
    rewrite u32_small by lia.
    assert (Hecho : halt_echo (pre ++ tok :: rest) (Z.of_nat (length pre))
                    = (fmt_d (Z.of_nat (length pre)) ++ " '" ++ tok ++ "'" ++ nl)%string).
    { unfold halt_echo, arg. now rewrite Nat2Z.id, nth_middle. }
    rewrite Hecho.
    assert (Hpre : Z.of_nat (length pre) + 1 = Z.of_nat (length (pre ++ [tok]))).
    { rewrite length_app. cbn [length]. lia. }
    assert (Hargv : pre ++ tok :: rest = (pre ++ [tok]) ++ rest).
    { now rewrite <- app_assoc. }
    rewrite Hpre, Hargv.
    rewrite IH by (rewrite <- Hargv, length_app; cbn [length]; lia).
    cbn [low_power hw trace].
    now rewrite <- app_assoc.
Qed.

Lemma blink_step_stays c : bpc c <> B_return -> bpc (blink_step c) <> B_return.
Proof.
  intros Hin. unfold blink_step.
  destruct (bpc c) as [| | i | i | i | i | i | |] eqn:Hpc; cbn [bpc];
    try discriminate; try contradiction.
  destruct (i <? blink_count c); cbn [bpc]; discriminate.
Qed.

Lemma blink_run_stays (n : nat) : forall c,
  bpc c <> B_return -> bpc (blink_run n c) <> B_return.
Proof.
  induction n as [| n IH]; intros c Hin; cbn [blink_run]; [exact Hin |].
  apply IH. now apply blink_step_stays.
Qed.

(** A step of the blink loop adds LED and delay calls only. *)
Lemma blink_step_quiet c :
  exists tail, trace (bworld (blink_step c)) = trace (bworld c) ++ tail
               /\ transcript tail = [] /\ dispatched tail = [].
Proof.
  unfold blink_step.
  destruct (bpc c) as [| | i | i | i | i | i | |];
    try (eexists [_]; cbn [bworld trace set_hw log];
         split; [reflexivity | split; reflexivity]);
    try (exists []; cbn [bworld]; rewrite app_nil_r;
         split; [reflexivity | split; reflexivity]).
  exists []. destruct (i <? blink_count c); cbn [bworld];
    rewrite app_nil_r; (split; [reflexivity | split; reflexivity]).
Qed.

Lemma blink_run_quiet (n : nat) : forall c,
  exists tail, trace (bworld (blink_run n c)) = trace (bworld c) ++ tail
               /\ transcript tail = [] /\ dispatched tail = [].
Proof.
  induction n as [| n IH]; intros c; cbn [blink_run].
  - exists []. rewrite app_nil_r. repeat split; reflexivity.
  - destruct (IH (blink_step c)) as (t2 & Ht2 & Hp2 & Hd2).
    destruct (blink_step_quiet c) as (t1 & Ht1 & Hp1 & Hd1).
    exists (t1 ++ t2). rewrite Ht2, Ht1, <- app_assoc.
    rewrite transcript_app, dispatched_app, Hp1, Hp2, Hd1, Hd2.
    repeat split; reflexivity.
Qed.

(** Where [halt_handler] leaves control: at the entry of [blinken_halt(2)],
    after the echo of the tokens and the word Halted. *)
Lemma halt_handler_enters_blink argv w :
  Z.of_nat (length argv) < 2 ^ 32 ->
  halt_handler (Z.of_nat (length argv)) argv w
  = Halted (BlinkConfig B_entry 2
              (World (low_power w) (hw w)
                 (trace w ++ halt_lines 0 argv ++ [Print ("Halted" ++ nl)]))).
Proof.
  intros Hlen. unfold halt_handler, for_u32. rewrite Nat2Z.id. unfold bind at 1.
  pose proof (halt_echo_loop argv [] w) as Hloop.
  cbn [app length] in Hloop. change (Z.of_nat 0) with 0 in Hloop.
  rewrite Hloop by exact Hlen.
  unfold blinken_halt. run_fw. now rewrite <- app_assoc.
Qed.

(** C5.  [halt_handler] echoes every token it was given, numbered from 0,
    prints Halted and enters [blinken_halt(2)].  From there no number of
    steps reaches the function's return, whatever code follows the call is
    never run, and nothing is printed or dispatched any more: the trace
    only grows by LED and delay calls.  In the foreground loop, a line feed
    whose dispatch runs the handler ends the console: the rest of the poll
    and all later polls are never consumed. *)
Theorem halt_handler_never_returns argv w :
  Z.of_nat (length argv) < 2 ^ 32 ->
  let argc := Z.of_nat (length argv) in
  let c := BlinkConfig B_entry 2
             (World (low_power w) (hw w)
                (trace w ++ halt_lines 0 argv ++ [Print ("Halted" ++ nl)])) in
  halt_handler argc argv w = Halted c
  /\ (forall (B : Type) (k : unit -> M hw_t B),
        bind (halt_handler argc argv) k w = Halted c)
  /\ (forall n, bpc (blink_run n c) <> B_return)
  /\ (forall n, exists tail,
        trace (bworld (blink_run n c)) = trace (bworld c) ++ tail
        /\ transcript tail = [] /\ dispatched tail = [])
  /\ (forall (cli_run : list Z -> M hw_t (list Z))
             (k : unit -> M hw_t (list Z)) st w0 rest polls,
        0 < idx st ->
        (forall w1, cli_run (<[Z.to_nat (idx st) := 0]> (line st)) w1
                    = bind (halt_handler argc argv) k w1) ->
        exists c', main_loop cli_run ((10 :: rest) :: polls) st w0 = Halted c'
                   /\ forall n, bpc (blink_run n c') <> B_return).
Proof.
  intros Hlen argc c.
  pose proof (halt_handler_enters_blink argv w Hlen) as Hrun.
  fold argc in Hrun. fold c in Hrun.
  split; [exact Hrun |]. split; [| split; [| split]].
  - intros B k. unfold bind at 1. now rewrite Hrun.
  - intros n. apply blink_run_stays. subst c. cbn [bpc]. discriminate.
  - intros n. apply blink_run_quiet.
  - intros cli_run k st w0 rest polls Hidx Hcli.
    eexists. split.
    + apply main_loop_halted, poll_halted.
      rewrite on_char_lf_dispatch by exact Hidx. cbv zeta.
      rewrite Hcli. unfold bind at 1. subst argc.
      rewrite (halt_handler_enters_blink argv _ Hlen). reflexivity.
    + intros n. apply blink_run_stays. cbn [bpc]. discriminate.
Qed.

End HaltFacts.

(** ** The theorems at work on the bench *)

Lemma plain_repeat (b : Z) (n : nat) : plain b -> Forall plain (repeat b n).
Proof. intros Hb. induction n as [| n IH]; cbn; constructor; assumption. Qed.

Lemma halt_handler_never_returns_witness :
  halt_handler 2 ["halt"; "now"]%string (world0 bench0)
    = Halted (BlinkConfig B_entry 2
                (World false bench0
                   [Print ("0 'halt'" ++ nl); Print ("1 'now'" ++ nl);
                    Print ("Halted" ++ nl)]))
  /\ bpc (blink_run 1000
            (BlinkConfig B_entry 2
               (World false bench0
                  [Print ("0 'halt'" ++ nl); Print ("1 'now'" ++ nl);
                   Print ("Halted" ++ nl)]))) <> B_return.
Proof.
  destruct (halt_handler_never_returns (board := bench_board)
              ["halt"; "now"]%string (world0 bench0) eq_refl)
    as (Hrun & _ & Hstay & _).
  split; [exact Hrun | exact (Hstay 1000%nat)].
Defined.

Lemma full_line_dispatched_intact_witness :
  dispatched (final_trace
    (poll cli_run_idle (repeat 97 78 ++ [10]) console0 (world0 bench0)))
  = [repeat 97 78].
Proof.
  assert (Hidx : idx console0 = 0) by reflexivity.
  assert (Hline : Z.of_nat (length (line console0)) = MAX_LINE_LENGTH)
    by reflexivity.
  assert (Hcs : Z.of_nat (length (repeat 97 78)) = MAX_LINE_LENGTH - 2)
    by reflexivity.
  assert (Hplain : Forall plain (repeat 97 78))
    by (apply plain_repeat; split; discriminate).
  pose proof (full_line_dispatched_intact (hw_t := bench) cli_run_idle
                (repeat 97 78) console0 (world0 bench0)
                Hidx Hline Hcs Hplain) as Hthm.
  cbv zeta in Hthm. destruct Hthm as (_ & _ & _ & Hpoll).
  rewrite Hpoll. vm_compute. reflexivity.
Defined.

(** C1, as stated, fails: of a line of 79 letters only the first 78 reach
    [cli_run]. *)
Lemma line_of_79_loses_last_char :
  dispatched (final_trace
    (poll cli_run_idle (repeat 97 79 ++ [10]) console0 (world0 bench0)))
  = [repeat 97 78]
  /\ dispatched (final_trace
    (poll cli_run_idle (repeat 97 79 ++ [10]) console0 (world0 bench0)))
  <> [map lo8 (repeat 97 79)].
Proof.
  split.
  - vm_compute. reflexivity.
  - vm_compute. intros Heq.
    apply (f_equal (fun ls => map (@length Z) ls)) in Heq.
    vm_compute in Heq. discriminate Heq.
Qed.

Lemma line_feed_dispatches_nonempty_line_witness :
  dispatched (final_trace
    (on_char cli_run_idle 10 (Console 2 (104 :: 105 :: repeat 0 78))
       (world0 bench0)))
  = [[104; 105]].
Proof.
  destruct (line_feed_dispatches_nonempty_line (hw_t := bench)
              cli_run_idle (Console 2 (104 :: 105 :: repeat 0 78))
              (world0 bench0) eq_refl ltac:(cbn; lia))
    as (_ & _ & Hlf & _).
  rewrite Hlf. vm_compute. reflexivity.
Defined.

(** C2, as stated, fails: a line feed at the empty prompt dispatches
    nothing, not even an empty line. *)
Lemma line_feed_on_empty_line_dispatches_nothing :
  final_trace (on_char cli_run_idle 10 console0 (world0 bench0))
  = [Print nl; Print "% "]
  /\ dispatched (final_trace (on_char cli_run_idle 10 console0 (world0 bench0)))
     <> [c_string (line console0)].
Proof.
  split.
  - vm_compute. reflexivity.
  - vm_compute. discriminate.
Qed.

Lemma chars_past_bound_dropped_silently_witness :
  poll cli_run_idle [97; 98] console_full (world0 bench0)
  = Ret console_full (world0 bench0).
Proof.
  apply (chars_past_bound_dropped_silently (hw_t := bench) cli_run_idle
           [97; 98] console_full (world0 bench0)).
  - repeat constructor; discriminate.
  - unfold MAX_LINE_LENGTH, console_full. cbn [idx]. lia.
Defined.

(** C3, as stated, fails: the 79th letter typed at the prompt is dropped
    and not echoed; the console and the transcript are those of 78
    letters. *)
Lemma char_past_bound_is_not_echoed :
  poll cli_run_idle (repeat 97 78) console0 (world0 bench0)
    = Ret console_full (World false bench0 (echo (repeat 97 78)))
  /\ on_char cli_run_idle 97 console_full
       (World false bench0 (echo (repeat 97 78)))
    = Ret console_full (World false bench0 (echo (repeat 97 78)))
  /\ transcript (final_trace
       (on_char cli_run_idle 97 console_full
          (World false bench0 (echo (repeat 97 78)))))
     <> transcript (echo (repeat 97 78)) ++ [fmt_c 97].
Proof.
  split; [| split].
  - vm_compute. reflexivity.
  - vm_compute. reflexivity.
  - intros Heq. apply (f_equal (@length string)) in Heq.
    vm_compute in Heq. discriminate Heq.
Qed.

Lemma wait_iff_low_power_witness :
  exists st' w'',
    main_iteration cli_run_idle [104; 105; 10] console0 (World true bench0 [])
      = Ret st' w''
    /\ calls (trace w'')
       = [c_cli_run [104; 105]; c_pwr_cr_set_lpsdsr; c_pwr_set_stop_mode; c_wfi]
    /\ waits (hw w'') = 1.
Proof.
  edestruct (wait_iff_low_power (board := bench_board) cli_run_idle
               [104; 105; 10] console0 (World true bench0 []))
    as (w'' & tail & Hiter & Htrace & _ & Htail & Hhw & _).
  { reflexivity. }
  eexists _, w''. split; [exact Hiter |].
  rewrite Htrace, Htail, Hhw. split; reflexivity.
Defined.


(** * Further properties of the foreground loop *)

Section LoopFacts.
Context {hw_t : Type} {board : Board hw_t}.
Variable cli_run : list Z -> M hw_t (list Z).
Implicit Types (w : world hw_t) (st : console) (cs bs : list Z).

Lemma dispatched_snoc_print (tr : list event) (s : string) :
  dispatched (tr ++ [Print s]) = dispatched tr.
Proof. rewrite dispatched_app. cbn. apply app_nil_r. Qed.

Lemma c_string_cut (l r : list Z) : c_string (l ++ 0 :: r) = c_string l.
Proof.
  induction l as [| b l IH]; cbn; [reflexivity |].
  destruct (b =? 0); [reflexivity | now rewrite IH].
Qed.

Lemma take_S_insert (l : list Z) (n : nat) (x : Z) :
  (n < length l)%nat -> take (S n) (<[n := x]> l) = take n l ++ [x].
Proof.
  revert n. induction l as [| y l IH]; intros n Hn; cbn in Hn; [lia |].
  destruct n as [| n]; cbn; [reflexivity |].
  f_equal. apply IH. lia.
Qed.

Lemma insert_at_end_of_take (l : list Z) (n : nat) (x : Z) :
  (n < length l)%nat -> <[n := x]> l = take n l ++ x :: drop (S n) l.
Proof.
  revert n. induction l as [| y l IH]; intros n Hn; cbn in Hn; [lia |].
  destruct n as [| n]; cbn; [reflexivity |].
  f_equal. apply IH. lia.
Qed.

(** One character keeps the index within the bound and the buffer its
    length. *)
Lemma on_char_keeps_shape (b : Z) st w st' w' :
  (forall buf w1 buf' w2,
     cli_run buf w1 = Ret buf' w2 -> length buf' = length buf) ->
  0 <= idx st <= MAX_LINE_LENGTH - 2 ->
  on_char cli_run b st w = Ret st' w' ->
  0 <= idx st' <= MAX_LINE_LENGTH - 2
  /\ length (line st') = length (line st).
Proof.
  intros Hlen Hidx. unfold on_char, MAX_LINE_LENGTH in *.
  destruct (b =? 13).
  { intros [= <- <-]. split; [lia | reflexivity]. }
  destruct (b =? 10).
  { unfold call_cli_run. run_fw.
    destruct (0 <? idx st).
    - destruct (cli_run _ _) as [buf' w2 |] eqn:Hrun; [| discriminate].
      intros [= <- <-]. cbn [idx line]. split; [lia |].
      rewrite length_insert, (Hlen _ _ _ _ Hrun). apply length_insert.
    - intros [= <- <-]. split; [lia | reflexivity]. }
  destruct (Z.ltb_spec (idx st) (80 - 2)).
  - run_fw. intros [= <- <-]. cbn [idx line].
    rewrite u32_small by lia. split; [lia | apply length_insert].
  - intros [= <- <-]. split; [lia | reflexivity].
Qed.

(** X1.  The write index never leaves [0, MAX_LINE_LENGTH - 2] and the
    buffer keeps its length, whatever bytes arrive and whatever
    length-preserving [cli_run] does: every store [line[i] = ...], the
    terminator included, falls inside the 80-byte array. *)
Theorem poll_stays_inside_buffer bs st w st' w' :
  (forall buf w1 buf' w2,
     cli_run buf w1 = Ret buf' w2 -> length buf' = length buf) ->
  Z.of_nat (length (line st)) = MAX_LINE_LENGTH ->
  0 <= idx st <= MAX_LINE_LENGTH - 2 ->
  poll cli_run bs st w = Ret st' w' ->
  0 <= idx st' <= MAX_LINE_LENGTH - 2
  /\ Z.of_nat (length (line st')) = MAX_LINE_LENGTH
  /\ (Z.to_nat (idx st') < length (line st'))%nat.
Proof.
  intros Hcli. revert st w.
  induction bs as [| b bs IH]; intros st w Hline Hidx Hpoll.
  - cbn [poll] in Hpoll. injection Hpoll as <- <-.
    unfold MAX_LINE_LENGTH in *. repeat split; lia.
  - cbn [poll] in Hpoll. unfold bind in Hpoll.
    destruct (on_char cli_run b st w) as [st1 w1 |] eqn:Hchar; [| discriminate].
    destruct (on_char_keeps_shape b st w st1 w1 Hcli Hidx Hchar) as [Hidx1 Hlen1].
    apply (IH st1 w1); [congruence | exact Hidx1 | exact Hpoll].
Qed.

(** X2.  Carriage returns are transparent: a byte stream and the same stream
    with every carriage return removed drive the loop the same way. *)
Theorem carriage_returns_are_transparent bs st w :
  poll cli_run (List.filter (fun b => negb (b =? 13)) bs) st w
  = poll cli_run bs st w.
Proof.
  revert st w. induction bs as [| b bs IH]; intros st w; [reflexivity |].
  cbn [List.filter]. destruct (b =? 13) eqn:Hcr; cbn [negb].
  - apply Z.eqb_eq in Hcr. subst b.
    cbn [poll]. unfold bind. rewrite on_char_cr. apply IH.
  - cbn [poll]. unfold bind.
    destruct (on_char cli_run b st w) as [st1 w1 | c]; [apply IH | reflexivity].
Qed.

(** Plain characters only count as far as the line has room. *)
Lemma poll_take_room cs : forall st w,
  Forall plain cs ->
  0 <= idx st <= MAX_LINE_LENGTH - 2 ->
  poll cli_run cs st w
  = poll cli_run (take (Z.to_nat (MAX_LINE_LENGTH - 2 - idx st)) cs) st w.
Proof.
  unfold MAX_LINE_LENGTH.
  induction cs as [| b cs IH]; intros st w Hplain Hidx.
  - now rewrite take_nil.
  - inversion Hplain as [| ? ? Hb Hcs]; subst.
    destruct (Z.eq_dec (idx st) 78) as [Hfull | Hroom].
    + rewrite Hfull. cbn [Z.sub Z.to_nat take].
      change (80 - 2 - 78) with 0. cbn [Z.to_nat take poll].
      unfold bind. rewrite on_char_dropped by (assumption || unfold MAX_LINE_LENGTH; lia).
      specialize (IH st w Hcs Hidx). rewrite Hfull in IH.
      change (80 - 2 - 78) with 0 in IH. cbn [Z.to_nat take poll] in IH.
      exact IH.
    + replace (Z.to_nat (80 - 2 - idx st))
        with (S (Z.to_nat (80 - 2 - (idx st + 1)))) by lia.
      cbn [take poll]. unfold bind.
      rewrite on_char_stored by (assumption || unfold MAX_LINE_LENGTH; lia).
      apply (IH (Console (idx st + 1) _)); [assumption | cbn [idx]; lia].
Qed.

(** X3.  Characters beyond the room left in the line have no effect at all:
    a run of plain characters acts like its first
    [MAX_LINE_LENGTH - 2 - i] characters, whatever follows it; typed at an
    empty prompt, a line of any length acts like its first 78 characters. *)
Theorem overlong_line_acts_as_prefix cs bs st w :
  Forall plain cs ->
  0 <= idx st <= MAX_LINE_LENGTH - 2 ->
  poll cli_run (cs ++ bs) st w
  = poll cli_run (take (Z.to_nat (MAX_LINE_LENGTH - 2 - idx st)) cs ++ bs) st w.
Proof.
  intros Hplain Hidx.
  rewrite !poll_app. unfold bind.
  now rewrite <- poll_take_room.
Qed.

End LoopFacts.

Lemma poll_stays_inside_buffer_witness :
  let st' := Console 1 (98 :: repeat 97 77 ++ [0; 0]) in
  0 <= idx st' <= MAX_LINE_LENGTH - 2
  /\ Z.of_nat (length (line st')) = MAX_LINE_LENGTH
  /\ (Z.to_nat (idx st') < length (line st'))%nat.
Proof.
  assert (Hcli : forall buf (w1 : world bench) buf' w2,
             cli_run_idle buf w1 = Ret buf' w2 -> length buf' = length buf).
  { intros buf w1 buf' w2 [= <- _]. reflexivity. }
  assert (Hline : Z.of_nat (length (line console0)) = MAX_LINE_LENGTH)
    by reflexivity.
  assert (Hidx : 0 <= idx console0 <= MAX_LINE_LENGTH - 2)
    by (cbn; unfold MAX_LINE_LENGTH; lia).
  assert (Hpoll : poll cli_run_idle (repeat 97 200 ++ [10; 98; 13]) console0
                    (world0 bench0)
                  = Ret (Console 1 (98 :: repeat 97 77 ++ [0; 0]))
                        (World false bench0
                           (echo (repeat 97 78)
                            ++ [Print nl; Call (c_cli_run (repeat 97 78));
                                Print "% "; Print (fmt_c 98)]))).
  { vm_compute. reflexivity. }
  exact (poll_stays_inside_buffer (hw_t := bench) cli_run_idle _ _ _ _ _
           Hcli Hline Hidx Hpoll).
Defined.

Lemma overlong_line_acts_as_prefix_witness :
  poll cli_run_idle (repeat 97 200 ++ [10]) console0 (world0 bench0)
  = poll cli_run_idle (repeat 97 78 ++ [10]) console0 (world0 bench0).
Proof.
  assert (Hplain : Forall plain (repeat 97 200))
    by (apply plain_repeat; split; discriminate).
  assert (Hidx : 0 <= idx console0 <= MAX_LINE_LENGTH - 2)
    by (cbn; unfold MAX_LINE_LENGTH; lia).
  exact (overlong_line_acts_as_prefix (hw_t := bench) cli_run_idle
           (repeat 97 200) [10] console0 (world0 bench0) Hplain Hidx).
Defined.


(** * Who changes the power mode *)

Section PowerFacts.
Context {hw_t : Type} {board : Board hw_t}.

Lemma keeps_power_ret {A : Type} (a : A) : keeps_power (ret (hw_t := hw_t) a).
Proof. intros w. reflexivity. Qed.

Lemma keeps_power_bind {A B : Type} (m : M hw_t A) (f : A -> M hw_t B) :
  keeps_power m -> (forall a, keeps_power (f a)) -> keeps_power (bind m f).
Proof.
  intros Hm Hf w. unfold bind. specialize (Hm w).
  destruct (m w) as [a w1 | c]; [| exact Hm].
  specialize (Hf a w1). destruct (f a w1); congruence.
Qed.

Lemma keeps_power_print (s : string) : keeps_power (dbg_printf (hw_t := hw_t) s).
Proof. intros w. reflexivity. Qed.

Lemma keeps_power_emit (e : event) : keeps_power (emit (hw_t := hw_t) e).
Proof. intros w. reflexivity. Qed.









End PowerFacts.


(** * The loop as a line assembler *)

Section AssemblerFacts.
Context {hw_t : Type} {board : Board hw_t}.
Variable cli_run : list Z -> M hw_t (list Z).
Implicit Types (w : world hw_t) (st : console) (cur bs : list Z).

(** One byte moves the console and the reference assembler in step. *)
Lemma on_char_assembles (b : Z) st w cur :
  returns_quietly cli_run ->
  holds st cur ->
  exists st1 w1 cur1 out,
    on_char cli_run b st w = Ret st1 w1
    /\ holds st1 cur1
    /\ dispatched (trace w1) = dispatched (trace w) ++ out
    /\ forall rest, assemble cur (b :: rest) = out ++ assemble cur1 rest.
Proof.
  intros Hquiet (Hidx & Htake & Hlen & Hroom).
  destruct st as [i l]. cbn [idx line] in *. subst i.
  unfold MAX_LINE_LENGTH in Hlen.
  destruct (b =? 13) eqn:Hcr.
  { apply Z.eqb_eq in Hcr. subst b.
    exists (Console (Z.of_nat (length cur)) l), w, cur, [].
    rewrite on_char_cr, app_nil_r.
    repeat split; try assumption; try reflexivity. }
  destruct (b =? 10) eqn:Hlf.
  { apply Z.eqb_eq in Hlf. subst b.
    destruct cur as [| x cur'].
    - exists (Console 0 l), (World (low_power w) (hw w)
                                 (trace w ++ [Print nl; Print "% "])), [], [].
      cbn [length]. change (Z.of_nat 0) with 0.
      rewrite on_char_lf_empty. cbn [trace].
      rewrite dispatched_app, app_nil_r. cbn [dispatched app].
      rewrite app_nil_r.
      repeat split; try assumption; try reflexivity.
    - set (cur := x :: cur') in *.
      assert (Hpos : 0 < Z.of_nat (length cur)) by (subst cur; cbn [length]; lia).
      rewrite on_char_lf_dispatch by (cbn [idx]; exact Hpos).
      cbv zeta. cbn [idx line]. rewrite Nat2Z.id.
      assert (Hbuf : <[length cur := 0]> l = cur ++ 0 :: drop (S (length cur)) l).
      { rewrite insert_at_end_of_take by lia. now rewrite Htake. }
      rewrite Hbuf, c_string_cut.
      destruct (Hquiet (cur ++ 0 :: drop (S (length cur)) l)
                  (World (low_power w) (hw w)
                     (trace w ++ [Print nl; Call (c_cli_run (c_string cur))])))
        as (buf' & w2 & Hrun & Hlen' & Hdisp).
      rewrite Hrun.
      exists (Console 0 (<[0%nat := 0]> buf')),
             (World (low_power w2) (hw w2) (trace w2 ++ [Print "% "])),
             [], [c_string cur].
      split; [reflexivity |]. split; [| split].
      + unfold holds. cbn [idx line length take].
        rewrite length_insert, Hlen', <- Hbuf, length_insert.
        unfold MAX_LINE_LENGTH. repeat split; try lia; reflexivity.
      + cbn [trace]. rewrite dispatched_snoc_print, Hdisp. cbn [trace].
        rewrite dispatched_app. cbn [dispatched]. reflexivity.
      + intros rest. subst cur. reflexivity. }
  assert (Hplain : plain b).
  { apply Z.eqb_neq in Hcr, Hlf. now split. }
  destruct (Nat.ltb_spec (length cur) 78) as [Hlt | Hge].
  - exists (Console (Z.of_nat (length cur) + 1)
                   (<[length cur := lo8 b]> l)),
           (World (low_power w) (hw w) (trace w ++ [Print (fmt_c (Z.land b 255))])),
           (cur ++ [lo8 b]), [].
    rewrite on_char_stored
      by (try assumption; cbn [idx]; unfold MAX_LINE_LENGTH; lia).
    cbn [idx line]. rewrite Nat2Z.id.
    split; [reflexivity |]. split; [| split].
    + unfold holds. cbn [idx line]. rewrite length_app. cbn [length].
      rewrite length_insert. unfold MAX_LINE_LENGTH.
      repeat split; try lia.
      replace (length cur + 1)%nat with (S (length cur)) by lia.
      rewrite take_S_insert by lia. now rewrite Htake.
    + cbn [trace]. now rewrite dispatched_snoc_print, app_nil_r.
    + intros rest. cbn [assemble app]. rewrite Hcr, Hlf.
      destruct (Nat.ltb_spec (length cur) 78); [reflexivity | lia].
  - exists (Console (Z.of_nat (length cur)) l), w, cur, [].
    rewrite on_char_dropped
      by (try assumption; cbn [idx]; unfold MAX_LINE_LENGTH; lia).
    rewrite app_nil_r.
    split; [reflexivity |]. split; [| split; [reflexivity |]].
    + unfold holds. cbn [idx line]. unfold MAX_LINE_LENGTH.
      repeat split; try assumption; lia.
    + intros rest. cbn [assemble app]. rewrite Hcr, Hlf.
      destruct (Nat.ltb_spec (length cur) 78); [lia | reflexivity].
Qed.

(** X5.  The loop is a line assembler: with a [cli_run] that returns and
    keeps the buffer's length, the lines handed to [cli_run] while a byte
    stream is consumed are exactly those of [assemble]: split at line
    feeds, carriage returns removed, empty lines skipped, 78 characters at
    most.  What an earlier, longer line left in the buffer never shows up
    in a later one. *)
Theorem poll_dispatches_assembled_lines bs st w cur :
  returns_quietly cli_run ->
  holds st cur ->
  exists st' w',
    poll cli_run bs st w = Ret st' w'
    /\ dispatched (trace w') = dispatched (trace w) ++ assemble cur bs.
Proof.
  intros Hquiet. revert st w cur.
  induction bs as [| b bs IH]; intros st w cur Hholds.
  - exists st, w. cbn [poll assemble]. now rewrite app_nil_r.
  - destruct (on_char_assembles b st w cur Hquiet Hholds)
      as (st1 & w1 & cur1 & out & Hchar & Hholds1 & Hdisp1 & Hstep).
    destruct (IH st1 w1 cur1 Hholds1) as (st' & w' & Hpoll & Hdisp).
    exists st', w'. cbn [poll]. unfold bind. rewrite Hchar.
    split; [exact Hpoll |].
    now rewrite Hdisp, Hdisp1, Hstep, app_assoc.
Qed.

(** The loop itself never writes the power flag. *)
Lemma poll_keeps_power bs : forall st,
  (forall buf, keeps_power (cli_run buf)) ->
  keeps_power (poll cli_run bs st).
Proof.
  induction bs as [| b bs IH]; intros st Hcli; cbn [poll].
  - apply keeps_power_ret.
  - apply keeps_power_bind; [| intros st1; now apply IH].
    unfold on_char, call_cli_run.
    repeat first
      [ apply keeps_power_ret
      | apply keeps_power_print
      | apply keeps_power_emit
      | apply Hcli
      | apply keeps_power_bind; [| intros ?]
      | match goal with
        | |- keeps_power (if ?c then _ else _) => destruct c
        end ].
Qed.

(** X6.  In Active mode, with a [cli_run] that does not write the power
    flag, the bursts in which the ring buffer delivers the bytes do not
    matter: running the loop over a sequence of polls is running one poll
    over their concatenation, and no wait is ever executed. *)
Theorem bursts_do_not_matter_when_active (polls : list (list Z)) st w :
  (forall buf, keeps_power (cli_run buf)) ->
  low_power w = false ->
  main_loop cli_run polls st w = poll cli_run (concat polls) st w.
Proof.
  intros Hcli. revert st w.
  induction polls as [| bs polls IH]; intros st w Hactive; [reflexivity |].
  cbn [main_loop concat]. rewrite poll_app.
  unfold main_iteration, bind.
  pose proof (poll_keeps_power bs st Hcli w) as Hkeep.
  destruct (poll cli_run bs st w) as [st1 w1 | c]; [| reflexivity].
  rewrite Hactive in Hkeep.
  unfold low_power_wait, get_low_power, bind, ret. rewrite Hkeep.
  now apply IH.
Qed.

End AssemblerFacts.

Lemma cli_run_idle_returns_quietly : returns_quietly (hw_t := bench) cli_run_idle.
Proof. intros buf w. exists buf, w. repeat split. Qed.

Lemma cli_run_idle_keeps_power (buf : list Z) :
  keeps_power (hw_t := bench) (cli_run_idle buf).
Proof. intros w. reflexivity. Qed.

Lemma console0_holds_nothing : holds console0 [].
Proof. repeat split. cbn. lia. Qed.

Lemma poll_dispatches_assembled_lines_witness :
  exists st' w',
    poll cli_run_idle [104; 101; 108; 108; 111; 13; 10; 10; 104; 105; 10]
      console0 (world0 bench0) = Ret st' w'
    /\ dispatched (trace w') = [[104; 101; 108; 108; 111]; [104; 105]].
Proof.
  exact (poll_dispatches_assembled_lines (hw_t := bench) cli_run_idle
           [104; 101; 108; 108; 111; 13; 10; 10; 104; 105; 10]
           console0 (world0 bench0) []
           cli_run_idle_returns_quietly console0_holds_nothing).
Defined.

Lemma bursts_do_not_matter_when_active_witness :
  main_loop cli_run_idle [[104]; []; [105; 10]] console0 (world0 bench0)
  = poll cli_run_idle [104; 105; 10] console0 (world0 bench0).
Proof.
  exact (bursts_do_not_matter_when_active (board := bench_board) cli_run_idle
           [[104]; []; [105; 10]] console0 (world0 bench0)
           cli_run_idle_keeps_power eq_refl).
Defined.


(** * The dumper, help and the store handlers *)

(** Evaluates the tests a handler makes on literal arguments. *)
Ltac eval_tests :=
  repeat match goal with
    | |- context [streq ?a ?b] =>
        let r := eval vm_compute in (streq a b) in
        change (streq a b) with r
    | |- context [Z.eqb ?a ?b] =>
        let r := eval vm_compute in (Z.eqb a b) in
        change (Z.eqb a b) with r
    end;
  cbv iota.

Section DumpFacts.
Context {hw_t : Type} {board : Board hw_t}.
Implicit Types (w : world hw_t) (argv : list string).

(** A counting loop whose body only appends events that depend on its
    index and on the hardware state. *)
Lemma for_loop_events (ev : hw_t -> Z -> list event) (body : Z -> M hw_t unit)
    (base : Z) :
  (forall j w, body j w
               = Ret tt (World (low_power w) (hw w) (trace w ++ ev (hw w) j))) ->
  forall (n s : nat) w,
    0 <= base ->
    base + Z.of_nat s + Z.of_nat n <= 2 ^ 32 ->
    for_loop n (base + Z.of_nat s) body w
    = Ret tt (World (low_power w) (hw w)
                (trace w
                 ++ flat_map (fun k => ev (hw w) (base + Z.of_nat k)) (seq s n))).
Proof.
  intros Hbody. induction n as [| n IH]; intros s w Hbase Hfit.
  - cbn [for_loop seq flat_map]. unfold ret. rewrite app_nil_r. now destruct w.
  - cbn [for_loop seq flat_map]. unfold bind. rewrite Hbody.
    destruct n as [| n'].
    + cbn [for_loop seq flat_map]. unfold ret. cbn [low_power hw trace].
      now rewrite app_nil_r.
    + rewrite u32_small by lia.
      replace (base + Z.of_nat s + 1) with (base + Z.of_nat (S s)) by lia.
      rewrite IH by lia. cbn [low_power hw trace].
      now rewrite <- app_assoc.
Qed.

(** [dump_mem] without its loop. *)
Lemma dump_mem_events (address length : Z) w :
  0 <= length < 2 ^ 32 ->
  dump_mem address length w
  = Ret tt (World (low_power w) (hw w)
              (trace w ++ dump_events (hw w) address length)).
Proof.
  intros Hlen. unfold dump_mem, for_u32, dump_events.
  unfold bind at 1. unfold dbg_printf at 1, emit, log. unfold bind at 1.
  pose proof (for_loop_events (fun h i => dump_cell h address i)
                (fun i =>
                   bind (if i mod LINE_WIDTH =? 0
                         then bind (dbg_printf nl) (fun _ =>
                                dbg_printf ("  " ++ fmt_08x (u32 (address + i)) ++ " : "))
                         else ret tt)
                     (fun _ =>
                        bind (peek (fun h => load8 h (u32 (address + i))))
                          (fun byte => dbg_printf (" " ++ fmt_02x byte))))
                0) as Hloop.
  cbn [Z.add] in Hloop.
  rewrite (Hloop ltac:(
    intros j w0; unfold dump_cell;
    destruct (j mod LINE_WIDTH =? 0); run_fw;
    rewrite <- ?app_assoc; reflexivity) (Z.to_nat length) 0%nat) by lia.
  run_fw. rewrite <- !app_assoc. reflexivity.
Qed.

Lemma calls_app (t1 t2 : list event) : calls (t1 ++ t2) = calls t1 ++ calls t2.
Proof.
  induction t1 as [| [s | c] t1 IH]; cbn; [reflexivity | exact IH | now rewrite IH].
Qed.

Lemma dump_cells_make_no_call (h : hw_t) (address : Z) (n s : nat) :
  calls (flat_map (fun k => dump_cell h address (Z.of_nat k)) (seq s n)) = [].
Proof.
  revert s. induction n as [| n IH]; intros s; cbn [seq flat_map]; [reflexivity |].
  rewrite calls_app, IH, app_nil_r. unfold dump_cell.
  destruct (Z.of_nat s mod LINE_WIDTH =? 0); reflexivity.
Qed.

(** The number of prints of the cells [0 .. n-1]: one per byte and two
    more for each row opened. *)
Lemma dump_cells_count (h : hw_t) (address : Z) (n : nat) :
  Z.of_nat (length (flat_map (fun k => dump_cell h address (Z.of_nat k)) (seq 0 n)))
  = Z.of_nat n + 2 * ((Z.of_nat n + 15) / 16).
Proof.
  induction n as [| n IH]; [reflexivity |].
  rewrite seq_S, flat_map_app, length_app, Nat2Z.inj_add, IH.
  cbn [flat_map Nat.add]. rewrite app_nil_r.
  unfold dump_cell, LINE_WIDTH. rewrite length_app.
  destruct (Z.eqb_spec (Z.of_nat n mod 16) 0) as [Hrow | Hmid];
    cbn [length Nat.add];
    rewrite Nat2Z.inj_succ;
    Z.to_euclidean_division_equations; lia.
Qed.

(** X7.  [dump_mem] is a read-only printer of the range it is given: it
    always returns, makes no outside call and leaves the hardware state and
    the power flag alone; it prints the summary line, then the bytes at
    [address], [address + 1], ... (modulo 2^32) in order, each row of 16
    opened by its address, then a newline: [length] byte cells and
    [(length + 15) / 16] row headers of two prints each. *)
Theorem dump_mem_prints_the_range (address length : Z) w :
  0 <= length < 2 ^ 32 ->
  dump_mem address length w
  = Ret tt (World (low_power w) (hw w)
              (trace w ++ dump_events (hw w) address length))
  /\ calls (dump_events (hw w) address length) = []
  /\ Z.of_nat (List.length (dump_events (hw w) address length))
     = 2 + length + 2 * ((length + 15) / 16).
Proof.
  intros Hlen. split; [now apply dump_mem_events |]. split.
  - unfold dump_events. rewrite !calls_app, dump_cells_make_no_call. reflexivity.
  - unfold dump_events. rewrite !length_app, !Nat2Z.inj_add, dump_cells_count.
    cbn [List.length]. rewrite Z2Nat.id by lia. lia.
Qed.

End DumpFacts.

Lemma dump_mem_prints_the_range_witness :
  transcript (final_trace (dump_mem 4096 18 (world0 bench0)))
  = transcript (dump_events bench0 4096 18)
  /\ Z.of_nat (length (dump_events bench0 4096 18)) = 24.
Proof.
  destruct (dump_mem_prints_the_range (board := bench_board) 4096 18
              (world0 bench0) ltac:(lia)) as (Hrun & _ & Hcount).
  rewrite Hrun. split; [reflexivity | exact Hcount].
Defined.

Section StoreHandlerFacts.
Context {hw_t : Type} {board : Board hw_t}.
Implicit Types (w : world hw_t) (argv : list string).

Lemma find_command_In (name : string) (table : list cli_command_t)
    (c : cli_command_t) :
  find_command name table = Some c -> In c table.
Proof.
  induction table as [| c0 table IH]; cbn [find_command]; [discriminate |].
  destruct (streq name (cmd c0)).
  - intros [= ->]. now left.
  - intros Hfind. right. now apply IH.
Qed.

Lemma transcript_prints {A : Type} (f : A -> string) (l : list A) :
  transcript (map (fun a => Print (f a)) l) = map f l.
Proof. induction l as [| a l IH]; cbn; [reflexivity | now rewrite IH]. Qed.

(** X8.  [help_handler] prints one line per table entry, in table order,
    made of the entry's name, four spaces and its help text, and does
    nothing else; so every command the table lookup can find is listed. *)
Theorem help_lists_every_command (argc : Z) argv w :
  help_handler argc argv w
  = Ret tt (World (low_power w) (hw w)
              (trace w
               ++ map (fun c => Print (cmd c ++ "    " ++ help c ++ nl)) commands))
  /\ forall name c,
       find_command name commands = Some c ->
       In (cmd c ++ "    " ++ help c ++ nl)%string
          (transcript (final_trace (help_handler argc argv w))).
Proof.
  assert (Hrun : help_handler argc argv w
                 = Ret tt (World (low_power w) (hw w)
                             (trace w
                              ++ map (fun c => Print (cmd c ++ "    " ++ help c ++ nl))
                                   commands))).
  { unfold help_handler, for_u32. rewrite Nat2Z.id.
    pose proof (for_loop_events
                  (fun _ i =>
                     [Print (cmd (nth (Z.to_nat i) commands no_command) ++ "    "
                             ++ help (nth (Z.to_nat i) commands no_command) ++ nl)])
                  (fun i =>
                     let c := nth (Z.to_nat i) commands no_command in
                     dbg_printf (cmd c ++ "    " ++ help c ++ nl))
                  0 ltac:(intros j w0; reflexivity)
                  (length commands) 0%nat w) as Hloop.
    change (0 + Z.of_nat 0) with 0 in Hloop.
    etransitivity; [apply Hloop; cbn; lia | reflexivity]. }
  split; [exact Hrun |].
  intros name c Hfind. rewrite Hrun. cbn [final_trace trace].
  rewrite transcript_app. apply in_or_app. right.
  apply find_command_In in Hfind.
  rewrite (transcript_prints (fun c => cmd c ++ "    " ++ help c ++ nl)%string).
  now apply (in_map (fun c => cmd c ++ "    " ++ help c ++ nl)%string).
Qed.

(** X9.  [pastread] of a unit the store does not have prints the not-found
    line naming the unit and nothing else: no dump, one store look-up, the
    hardware state and the power flag as before. *)
Theorem past_read_handler_missing_unit (argc : Z) (name a : string) w :
  past_read_unit (u32 (atoi a)) (hw w) = None ->
  past_read_handler argc [name; a] w
  = Ret tt (World (low_power w) (hw w)
              (trace w
               ++ [Call (c_past_read_unit (u32 (atoi a)));
                   Print ("Unit " ++ fmt_d (u32 (atoi a)) ++ " not found" ++ nl)])).
Proof.
  intros Hmissing. unfold past_read_handler. cbn [arg nth]. run_fw.
  rewrite Hmissing. cbn [low_power hw trace].
  now rewrite <- app_assoc.
Qed.

(** X10.  [pastread] of a unit the store has prints the unit as a C string
    with its length in bytes, then dumps exactly the [length] bytes at the
    unit's address; the store is looked up once and nothing is changed. *)
Theorem past_read_handler_present_unit (argc : Z) (name a : string) w
    (data length : Z) :
  past_read_unit (u32 (atoi a)) (hw w) = Some (data, length) ->
  0 <= length < 2 ^ 32 ->
  past_read_handler argc [name; a] w
  = Ret tt (World (low_power w) (hw w)
              (trace w
               ++ [Call (c_past_read_unit (u32 (atoi a)));
                   Print ("'" ++ load_cstr (hw w) data ++ "' ("
                          ++ fmt_d length ++ " bytes)" ++ nl)]
               ++ dump_events (hw w) data length)).
Proof.
  intros Hfound Hlen. unfold past_read_handler. cbn [arg nth].
  unfold bind at 1. unfold ext_q at 1. rewrite Hfound.
  unfold bind at 1. unfold peek at 1. unfold bind at 1.
  unfold dbg_printf at 1, emit, log. cbn [low_power hw trace].
  rewrite dump_mem_events by exact Hlen. cbn [low_power hw trace].
  now rewrite <- !app_assoc.
Qed.

Lemma bytes_at_with_terminator (s : string) :
  bytes_at s (strlen s + 1) = bytes_of_string s ++ [0].
Proof.
  unfold bytes_at, strlen.
  replace (Z.to_nat (Z.of_nat (String.length s) + 1))
    with (length (bytes_of_string s ++ [0])).
  - apply firstn_all.
  - rewrite length_app, bytes_of_string_length. cbn [length]. lia.
Qed.

(** X11.  [pastwrite <unit> <data>] issues exactly one store write, to unit
    [atoi(unit)] taken modulo 2^32, of the characters of [data] followed by
    the terminating NUL: [strlen(data) + 1] bytes, the count it reports on
    success.  When the store refuses, it prints the failure line. *)
Theorem past_write_handler_stores_terminated_string (argc : Z)
    (name a d : string) w :
  let id := u32 (atoi a) in
  let data := bytes_of_string d ++ [0] in
  Z.of_nat (length data) = strlen d + 1
  /\ past_write_handler argc [name; a; d] w
     = let '(ok, h') := past_write_unit id data (hw w) in
       Ret tt (World (low_power w) h'
                 (trace w
                  ++ [Call (c_past_write_unit id data);
                      Print (if ok
                             then "Wrote unit " ++ fmt_d id ++ " ("
                                  ++ fmt_d (strlen d + 1) ++ " bytes)" ++ nl
                             else "Failed to write unit " ++ fmt_d id ++ nl)])).
Proof.
  intros id data. split.
  - subst data. rewrite length_app, bytes_of_string_length.
    unfold strlen. cbn [length]. lia.
  - unfold past_write_handler, write_unit. cbn [arg nth].
    rewrite bytes_at_with_terminator. fold id. fold data. run_fw.
    destruct (past_write_unit id data (hw w)) as [ok h'].
    destruct ok; cbn [low_power hw trace]; now rewrite <- app_assoc.
Qed.

(** X12.  [pastdump] dumps both storage blocks with one and the same size,
    block 0 first: the size is the block size when no argument is given and
    [atoi] of the argument, taken modulo 2^32 and not checked against the
    block size, when one is given (so a negative argument asks for a dump
    of nearly 4 GiB).  It makes no outside call and changes nothing. *)
Theorem past_dump_handler_dumps_both_blocks
    (blocks0 blocks1 past_block_size argc : Z) argv w :
  0 <= past_block_size < 2 ^ 32 ->
  let dump_size :=
    if argc =? 2 then atoi (arg argv 1) mod 2 ^ 32 else past_block_size in
  past_dump_handler blocks0 blocks1 past_block_size argc argv w
  = Ret tt (World (low_power w) (hw w)
              (trace w
               ++ [Print ("Past block 0:" ++ nl)]
               ++ dump_events (hw w) blocks0 dump_size
               ++ [Print (nl ++ "Past block 1:" ++ nl)]
               ++ dump_events (hw w) blocks1 dump_size))
  /\ 0 <= dump_size < 2 ^ 32.
Proof.
  intros Hsize dump_size.
  assert (Hdump : 0 <= dump_size < 2 ^ 32).
  { subst dump_size. destruct (argc =? 2); [| exact Hsize].
    apply Z.mod_pos_bound. lia. }
  split; [| exact Hdump].
  unfold past_dump_handler. fold (u32 (atoi (arg argv 1))).
  change (if argc =? 2 then u32 (atoi (arg argv 1)) else past_block_size)
    with dump_size.
  unfold bind at 1. unfold dbg_printf at 1, emit, log.
  unfold bind at 1. rewrite dump_mem_events by exact Hdump.
  cbn [low_power hw trace].
  unfold bind at 1. unfold dbg_printf at 1, emit, log. cbn [low_power hw trace].
  rewrite dump_mem_events by exact Hdump. cbn [low_power hw trace].
  now rewrite <- !app_assoc.
Qed.

(** X13.  [tempalert] only reports: with two arguments it echoes the two
    numbers and calls nothing (no threshold is written to the sensor), with
    none it reads the alert pin once and prints its level, and with any
    other count it is silent.  The hardware state and the power flag are
    never changed. *)
Theorem tempalert_only_reports (argc : Z) argv w :
  exists tr,
    temperature_alert_handler argc argv w
    = Ret tt (World (low_power w) (hw w) (trace w ++ tr))
    /\ (argc = 3 ->
        tr = [Print ("low:" ++ fmt_d (atoi (arg argv 1))
                     ++ " high:" ++ fmt_d (atoi (arg argv 2)) ++ nl)])
    /\ (argc = 1 ->
        tr = [Call c_gpio_get_temp_alert;
              Print (fmt_d (gpio_get_temp_alert (hw w)) ++ nl)])
    /\ (argc <> 3 -> argc <> 1 -> tr = []).
Proof.
  unfold temperature_alert_handler.
  destruct (Z.eqb_spec argc 3) as [H3 | H3].
  - eexists. split; [reflexivity |]. repeat split; intros; (reflexivity || lia).
  - destruct (Z.eqb_spec argc 1) as [H1 | H1].
    + eexists. split.
      * run_fw. rewrite <- app_assoc. reflexivity.
      * repeat split; intros; (reflexivity || lia).
    + exists []. split.
      * unfold ret. rewrite app_nil_r. now destruct w.
      * repeat split; intros; (reflexivity || lia).
Qed.

End StoreHandlerFacts.

Lemma past_read_handler_missing_unit_witness :
  transcript (final_trace (past_read_handler 2 ["pastread"; "9"]%string
                             (world0 bench0)))
  = [("Unit 9 not found" ++ nl)%string].
Proof.
  rewrite (past_read_handler_missing_unit (board := bench_board) 2
             "pastread" "9" (world0 bench0) eq_refl).
  reflexivity.
Defined.

Lemma past_read_handler_present_unit_witness :
  transcript (final_trace
    (past_read_handler 2 ["pastread"; "5"]%string
       (world0 (set_units [(5, [104; 105; 0])] bench0))))
  = ("'hi' (3 bytes)" ++ nl)%string
    :: transcript (dump_events (set_units [(5, [104; 105; 0])] bench0) 24576 3).
Proof.
  rewrite (past_read_handler_present_unit (board := bench_board) 2
             "pastread" "5" (world0 (set_units [(5, [104; 105; 0])] bench0))
             24576 3 eq_refl ltac:(lia)).
  reflexivity.
Defined.

Lemma past_dump_handler_dumps_both_blocks_witness :
  final_trace
    (past_dump_handler 4096 8192 4096 2 ["pastdump"; "20"]%string
       (world0 bench0))
  = [Print ("Past block 0:" ++ nl)] ++ dump_events bench0 4096 20
    ++ [Print (nl ++ "Past block 1:" ++ nl)] ++ dump_events bench0 8192 20.
Proof.
  destruct (past_dump_handler_dumps_both_blocks (board := bench_board)
              4096 8192 4096 2 ["pastdump"; "20"]%string (world0 bench0)
              ltac:(lia)) as [Hrun _].
  rewrite Hrun. reflexivity.
Defined.


(** * The rfm command *)

Section RadioFacts.
Context {hw_t : Type} {board : Board hw_t}.
Implicit Types (w : world hw_t) (argv : list string).

Lemma le32_decodes (v : Z) :
  match le32 v with
  | [b0; b1; b2; b3] =>
      b0 + 256 * b1 + 65536 * b2 + 16777216 * b3 = u32 v
      /\ Forall (fun b => 0 <= b < 256) [b0; b1; b2; b3]
  | _ => False
  end.
Proof.
  unfold le32.
  assert (Hv : 0 <= u32 v < 2 ^ 32) by (apply Z.mod_pos_bound; lia).
  change 255 with (Z.ones 8).
  rewrite !Z.land_ones, !Z.shiftr_div_pow2 by lia.
  change (2 ^ 8) with 256. change (2 ^ 16) with 65536.
  change (2 ^ 24) with 16777216. change (2 ^ 32) with 4294967296 in Hv.
  split.
  - Z.to_euclidean_division_equations. lia.
  - repeat constructor; Z.to_euclidean_division_equations; lia.
Qed.

(** X14.  The four numeric settings of [rfm] each go to a unit of their
    own: [id] to the node id, [net] to the network id, [gw] to the gateway
    id and [pwr] to the maximum power.  The handler prints the unit number
    and the value, then issues exactly one store write of the value as four
    little-endian bytes, and prints the store's verdict. *)
Theorem rfm_numeric_settings_written (name sub v : string)
    (id : parameter_id_t) w :
  In (sub, id) [("id"%string, past_rfm_node_id); ("net"%string, past_rfm_net_id);
                ("gw"%string, past_rfm_gateway_id);
                ("pwr"%string, past_rfm_max_power)] ->
  let value := u32 (atoi v) in
  (exists b0 b1 b2 b3,
      le32 value = [b0; b1; b2; b3]
      /\ b0 + 256 * b1 + 65536 * b2 + 16777216 * b3 = value)
  /\ rfm_handler 3 [name; sub; v] w
     = let '(ok, h') := past_write_unit (unit_id id) (le32 value) (hw w) in
       Ret tt (World (low_power w) h'
                 (trace w
                  ++ [Print (fmt_d (unit_id id) ++ ":" ++ fmt_d value ++ nl);
                      Call (c_past_write_unit (unit_id id) (le32 value));
                      Print (if ok then "OK" ++ nl else "ERROR" ++ nl)])).
Proof.
  intros Hsub value. split.
  - pose proof (le32_decodes value) as Hdec.
    destruct (le32 value) as [| b0 [| b1 [| b2 [| b3 [| ? ?]]]]]; try contradiction.
    exists b0, b1, b2, b3. split; [reflexivity |].
    destruct Hdec as [Hsum _]. rewrite Hsum.
    subst value. unfold u32. apply Z.mod_mod. lia.
  - cbn [In] in Hsub.
    destruct Hsub as [Heq | [Heq | [Heq | [Heq | []]]]];
      injection Heq as <- <-;
      unfold rfm_handler; cbn [arg nth]; eval_tests;
      unfold rfm_set_uint32, write_unit; fold value; run_fw;
      destruct (past_write_unit _ _ _) as [ok h'];
      destruct ok; cbn [low_power hw trace];
      rewrite <- !app_assoc; reflexivity.
Qed.

(** X15.  What [rfm] does with a subcommand it does not know, and with a
    token count outside 1..4: an unknown word alone is ignored without a
    message, with one or two further arguments it is answered by the
    illegal-command error, and a count outside 1..4 by the
    wrong-number error.  None of these paths calls a driver or changes the
    state. *)
Theorem rfm_rejects_unknown_subcommands (name sub a b : string)
    (argc : Z) argv w :
  ~ In sub ["init"; "id"; "net"; "gw"; "pwr"; "key"; "tx"]%string ->
  argc < 1 \/ 4 < argc ->
  rfm_handler 2 [name; sub] w = Ret tt w
  /\ rfm_handler 3 [name; sub; a] w
     = Ret tt (World (low_power w) (hw w)
                 (trace w ++ [Print ("ERROR: Illegal command" ++ nl)]))
  /\ rfm_handler 4 [name; sub; a; b] w
     = Ret tt (World (low_power w) (hw w)
                 (trace w ++ [Print ("ERROR: Illegal command" ++ nl)]))
  /\ rfm_handler argc argv w
     = Ret tt (World (low_power w) (hw w)
                 (trace w ++ [Print ("ERROR: Wrong number of parameters" ++ nl)])).
Proof.
  intros Hsub Hargc. cbn [In] in Hsub.
  assert (Hinit : streq sub "init" = false) by (apply streq_ne; intros ->; tauto).
  assert (Hid : streq sub "id" = false) by (apply streq_ne; intros ->; tauto).
  assert (Hnet : streq sub "net" = false) by (apply streq_ne; intros ->; tauto).
  assert (Hgw : streq sub "gw" = false) by (apply streq_ne; intros ->; tauto).
  assert (Hpwr : streq sub "pwr" = false) by (apply streq_ne; intros ->; tauto).
  assert (Hkey : streq sub "key" = false) by (apply streq_ne; intros ->; tauto).
  assert (Htx : streq sub "tx" = false) by (apply streq_ne; intros ->; tauto).
  split; [| split; [| split]].
  - unfold rfm_handler. cbn [arg nth].
    change (2 =? 1) with false. change (2 =? 2) with true. cbv iota.
    now rewrite Hinit.
  - unfold rfm_handler. cbn [arg nth].
    change (3 =? 1) with false. change (3 =? 2) with false.
    change (3 =? 3) with true. cbv iota.
    now rewrite Hid, Hnet, Hgw, Hpwr, Hkey.
  - unfold rfm_handler. cbn [arg nth].
    change (4 =? 1) with false. change (4 =? 2) with false.
    change (4 =? 3) with false. change (4 =? 4) with true. cbv iota.
    now rewrite Htx.
  - unfold rfm_handler.
    destruct (Z.eqb_spec argc 1); [lia |].
    destruct (Z.eqb_spec argc 2); [lia |].
    destruct (Z.eqb_spec argc 3); [lia |].
    destruct (Z.eqb_spec argc 4); [lia |].
    reflexivity.
Qed.

Lemma need_unit_found (id : parameter_id_t) (missing : string)
    (k : Z -> M hw_t unit) w (p l : Z) :
  past_read_unit (unit_id id) (hw w) = Some (p, l) ->
  need_unit id missing k w
  = k p (World (low_power w) (hw w)
           (trace w ++ [Call (c_past_read_unit (unit_id id))])).
Proof. intros Hfound. unfold need_unit. run_fw. now rewrite Hfound. Qed.

Lemma need_unit_missing (id : parameter_id_t) (missing : string)
    (k : Z -> M hw_t unit) w :
  past_read_unit (unit_id id) (hw w) = None ->
  need_unit id missing k w
  = Ret tt (World (low_power w) (hw w)
              (trace w ++ [Call (c_past_read_unit (unit_id id));
                           Print (missing ++ nl)])).
Proof.
  intros Hmissing. unfold need_unit. run_fw. rewrite Hmissing.
  cbn [low_power hw trace]. now rewrite <- app_assoc.
Qed.

Lemma print_unit_u32_events (label : string) (id : parameter_id_t) w :
  print_unit_u32 label id w
  = Ret tt (World (low_power w) (hw w)
              (trace w
               ++ [Print label; Call (c_past_read_unit (unit_id id));
                   Print match past_read_unit (unit_id id) (hw w) with
                         | Some (p, _) => fmt_d (load32 (hw w) p) ++ nl
                         | None => "NA" ++ nl
                         end])).
Proof.
  unfold print_unit_u32. run_fw.
  destruct (past_read_unit (unit_id id) (hw w)) as [[p l] |];
    cbn [low_power hw trace]; now rewrite <- !app_assoc.
Qed.

(** Runs the first call, read or print of a sequence. *)
Ltac step_fw :=
  unfold bind at 1;
  first [ unfold ext at 1 | unfold peek at 1 | unfold dbg_printf at 1, emit ];
  unfold set_hw, log; cbn [low_power hw trace].

(** Steps over a look-up of [rfm_init] that finds its unit. *)
Ltac found_unit H :=
  cbv beta; erewrite need_unit_found by (cbn [hw]; exact H);
  cbv beta; cbn [low_power hw trace].

(** Closes the case of [rfm_init] in which the unit just looked up is
    missing. *)
Ltac abort_here H :=
  cbv beta; erewrite need_unit_missing by (cbn [hw]; exact H);
  cbn [low_power hw trace];
  eexists _, _; split;
  [ rewrite <- ?app_assoc; cbn [app]; reflexivity
  | split;
    [ reflexivity
    | cbn [calls]; intros c Hc;
      repeat (destruct Hc as [<- | Hc]; [eexists; reflexivity |]);
      contradiction ] ].

(** X16.  [rfm init] with an incomplete configuration aborts before it
    touches the radio: when any of the five units is missing, the handler
    only looks units up, prints exactly one line, and leaves the hardware
    state as it was. *)
Theorem rfm_init_aborts_when_unit_missing (name : string) w :
  (exists id, past_read_unit (unit_id id) (hw w) = None) ->
  exists tr line,
    rfm_handler 2 [name; "init"%string] w
    = Ret tt (World (low_power w) (hw w) (trace w ++ tr))
    /\ transcript tr = [line]
    /\ forall c, In c (calls tr) -> exists id, c = c_past_read_unit (unit_id id).
Proof.
  intros Hmissing.
  unfold rfm_handler. cbn [arg nth]. eval_tests.
  unfold rfm_init.
  destruct (past_read_unit (unit_id past_rfm_node_id) (hw w)) as [[p1 l1] |] eqn:H1;
    [| abort_here H1].
  found_unit H1.
  destruct (past_read_unit (unit_id past_rfm_net_id) (hw w)) as [[p2 l2] |] eqn:H2;
    [| abort_here H2].
  found_unit H2.
  destruct (past_read_unit (unit_id past_rfm_gateway_id) (hw w)) as [[p3 l3] |] eqn:H3;
    [| abort_here H3].
  found_unit H3.
  destruct (past_read_unit (unit_id past_rfm_max_power) (hw w)) as [[p4 l4] |] eqn:H4;
    [| abort_here H4].
  found_unit H4.
  destruct (past_read_unit (unit_id past_rfm_key) (hw w)) as [[p5 l5] |] eqn:H5;
    [| abort_here H5].
  destruct Hmissing as [[] Hnone]; congruence.
Qed.

(** X17.  [rfm init] with a complete configuration resets and probes the
    radio.  When the radio does not answer, the handler prints the
    not-found error and applies no setting.  When it answers, the radio is
    put to sleep and configured from the store, in this order: transmit
    power, CSMA on, automatic RSSI on, the 16 bytes at the key unit as AES
    key, node id, network id; the gateway id is looked up but not used. *)
Theorem rfm_init_configures_radio (name : string) w
    (node_id network_id gateway_id max_power aesKey l1 l2 l3 l4 l5 : Z)
    (found : bool) (h1 : hw_t) :
  past_read_unit (unit_id past_rfm_node_id) (hw w) = Some (node_id, l1) ->
  past_read_unit (unit_id past_rfm_net_id) (hw w) = Some (network_id, l2) ->
  past_read_unit (unit_id past_rfm_gateway_id) (hw w) = Some (gateway_id, l3) ->
  past_read_unit (unit_id past_rfm_max_power) (hw w) = Some (max_power, l4) ->
  past_read_unit (unit_id past_rfm_key) (hw w) = Some (aesKey, l5) ->
  rfm69_init (rfm69_reset (rfm69_setResetPin (hw w))) = (found, h1) ->
  let h2 := rfm69_sleep h1 in
  let dbm := load32 h2 max_power in
  let h3 := rfm69_setAutoReadRSSI true
              (rfm69_setCSMA true (rfm69_setPowerDBm dbm h2)) in
  let key := load_bytes h3 aesKey 16 in
  let h4 := rfm69_setAESEncryption key h3 in
  let node := load32 h4 node_id in
  let h5 := rfm69link_setNodeId node h4 in
  let net := load32 h5 network_id in
  let h6 := rfm69link_setNetworkId net h5 in
  rfm_handler 2 [name; "init"%string] w
  = Ret tt (World (low_power w) (if found then h6 else h1)
              (trace w
               ++ map (fun id => Call (c_past_read_unit (unit_id id)))
                    [past_rfm_node_id; past_rfm_net_id; past_rfm_gateway_id;
                     past_rfm_max_power; past_rfm_key]
               ++ [Call c_rfm69_setResetPin; Call c_rfm69_reset; Call c_rfm69_init]
               ++ (if found
                   then [Call c_rfm69_sleep; Call (c_rfm69_setPowerDBm dbm);
                         Call (c_rfm69_setCSMA true);
                         Call (c_rfm69_setAutoReadRSSI true);
                         Call (c_rfm69_setAESEncryption key);
                         Call (c_rfm69link_setNodeId node);
                         Call (c_rfm69link_setNetworkId net);
                         Print ("OK" ++ nl)]
                   else [Print ("ERROR: No RFM69CW found" ++ nl)]))).
Proof.
  intros H1 H2 H3 H4 H5 Hinit h2 dbm h3 key h4 node h5 net h6.
  unfold rfm_handler. cbn [arg nth]. eval_tests.
  unfold rfm_init.
  found_unit H1.
  found_unit H2.
  found_unit H3.
  found_unit H4.
  found_unit H5.
  step_fw. step_fw.
  unfold bind at 1. unfold ext_r at 1. cbn [low_power hw trace].
  rewrite Hinit. unfold set_hw, log. cbn [low_power hw trace].
  destruct found; cbn [negb].
  - repeat step_fw. unfold dbg_printf, emit, log. cbn [low_power hw trace map].
    rewrite <- !app_assoc. reflexivity.
  - unfold dbg_printf, emit, log. cbn [low_power hw trace map].
    rewrite <- !app_assoc. reflexivity.
Qed.

(** X18.  [rfm] without arguments only reads: it looks the five units up in
    the order node id, network id, gateway id, maximum power, key, calls
    nothing else and changes nothing, and prints five labelled values, a
    unit that is missing reading NA. *)
Theorem rfm_without_arguments_only_reads (name : string) w :
  let number id :=
    match past_read_unit (unit_id id) (hw w) with
    | Some (p, _) => (fmt_d (load32 (hw w) p) ++ nl)%string
    | None => ("NA" ++ nl)%string
    end in
  let text id :=
    match past_read_unit (unit_id id) (hw w) with
    | Some (p, _) => (load_cstr (hw w) p ++ nl)%string
    | None => ("NA" ++ nl)%string
    end in
  exists tr,
    rfm_handler 1 [name] w = Ret tt (World (low_power w) (hw w) (trace w ++ tr))
    /\ calls tr
       = map (fun id => c_past_read_unit (unit_id id))
           [past_rfm_node_id; past_rfm_net_id; past_rfm_gateway_id;
            past_rfm_max_power; past_rfm_key]
    /\ transcript tr
       = ["Node id    : "; number past_rfm_node_id;
          "Network id : "; number past_rfm_net_id;
          "Gateway id : "; number past_rfm_gateway_id;
          "Max power  : "; number past_rfm_max_power;
          "AES key    : "; text past_rfm_key]%string.
Proof.
  intros number text. subst number text. cbv beta.
  unfold rfm_handler. cbn [arg nth]. eval_tests.
  unfold dump_rfm_settings.
  unfold bind at 1. rewrite print_unit_u32_events.
  unfold bind at 1. rewrite print_unit_u32_events. cbn [low_power hw trace].
  unfold bind at 1. rewrite print_unit_u32_events. cbn [low_power hw trace].
  unfold bind at 1. rewrite print_unit_u32_events. cbn [low_power hw trace].
  run_fw.
  destruct (past_read_unit (unit_id past_rfm_key) (hw w)) as [[p5 l5] |];
    cbn [low_power hw trace];
    (eexists; split;
     [ rewrite <- ?app_assoc; cbn [app]; reflexivity
     | split; reflexivity ]).
Qed.

End RadioFacts.


Lemma rfm_numeric_settings_written_witness :
  calls (final_trace (rfm_handler 3 ["rfm"; "gw"; "300"]%string (world0 bench0)))
  = [c_past_write_unit 3 [44; 1; 0; 0]].
Proof.
  destruct (rfm_numeric_settings_written (board := bench_board) "rfm" "gw" "300"
              past_rfm_gateway_id (world0 bench0)
              ltac:(cbn; tauto)) as [_ Hrun].
  rewrite Hrun. reflexivity.
Defined.

Lemma rfm_rejects_unknown_subcommands_witness :
  rfm_handler 2 ["rfm"; "bogus"]%string (world0 bench0) = Ret tt (world0 bench0)
  /\ transcript (final_trace
        (rfm_handler 3 ["rfm"; "bogus"; "1"]%string (world0 bench0)))
     = [("ERROR: Illegal command" ++ nl)%string]
  /\ transcript (final_trace (rfm_handler 7 [] (world0 bench0)))
     = [("ERROR: Wrong number of parameters" ++ nl)%string].
Proof.
  destruct (rfm_rejects_unknown_subcommands (board := bench_board)
              "rfm" "bogus" "1" "2" 7 [] (world0 bench0)
              ltac:(cbn; intuition discriminate) ltac:(lia))
    as (H2 & H3 & _ & Hn).
  rewrite H3, Hn. split; [exact H2 | split; reflexivity].
Defined.

Lemma rfm_init_aborts_when_unit_missing_witness :
  exists tr line,
    rfm_handler 2 ["rfm"; "init"]%string
      (world0 (set_units [(1, [7; 0; 0; 0])] bench0))
    = Ret tt (World false (set_units [(1, [7; 0; 0; 0])] bench0) tr)
    /\ transcript tr = [line].
Proof.
  destruct (rfm_init_aborts_when_unit_missing (board := bench_board) "rfm"
              (world0 (set_units [(1, [7; 0; 0; 0])] bench0))
              (ex_intro _ past_rfm_key eq_refl))
    as (tr & line & Hrun & Hline & _).
  exists tr, line. split; [exact Hrun | exact Hline].
Defined.

Lemma rfm_init_configures_radio_witness :
  transcript (final_trace
    (rfm_handler 2 ["rfm"; "init"]%string
       (world0 (set_units [(1, [7]); (2, [1]); (3, [2]); (4, [13]); (5, [107])]
                  bench0))))
  = [("ERROR: No RFM69CW found" ++ nl)%string].
Proof.
  rewrite (rfm_init_configures_radio (board := bench_board) "rfm"
             (world0 (set_units [(1, [7]); (2, [1]); (3, [2]); (4, [13]); (5, [107])]
                        bench0))
             8192 12288 16384 20480 24576 1 1 1 1 1 false
             (set_units [(1, [7]); (2, [1]); (3, [2]); (4, [13]); (5, [107])] bench0)
             eq_refl eq_refl eq_refl eq_refl eq_refl eq_refl).
  reflexivity.
Defined.


(** * The halt signal and the command table *)

Section BlinkFacts.
Context {hw_t : Type} {board : Board hw_t}.
Implicit Types (w : world hw_t) (c : blink_config hw_t).

Lemma blink_run_add (a b : nat) c :
  blink_run (a + b) c = blink_run b (blink_run a c).
Proof. revert c. induction a as [| a IH]; intros c; cbn; [reflexivity | apply IH]. Qed.

(** One pass through the body of the blink loop. *)
Lemma blink_once_steps (i n : Z) w :
  i < n ->
  exists w',
    blink_run 5 (BlinkConfig (B_for i) n w) = BlinkConfig (B_for (u32 (i + 1))) n w'
    /\ low_power w' = low_power w
    /\ trace w' = trace w ++ blink_once.
Proof.
  intros Hlt. cbn [blink_run]. unfold blink_step at 5.
  cbn [bpc blink_count bworld].
  destruct (Z.ltb_spec i n) as [_ | Hge]; [| lia].
  unfold blink_step. cbn [bpc blink_count bworld].
  eexists. split; [reflexivity |].
  unfold set_hw, log, blink_once. cbn [low_power trace].
  split; [reflexivity | now rewrite <- !app_assoc].
Qed.

(** The blink loop from [i] on: the remaining blinks, then the pause is
    reached. *)
Lemma blink_for_runs (n : Z) (k : nat) : forall (i : Z) w,
  0 <= i -> i + Z.of_nat k = n -> n < 2 ^ 32 ->
  exists w',
    blink_run (5 * k + 1) (BlinkConfig (B_for i) n w) = BlinkConfig B_pause n w'
    /\ low_power w' = low_power w
    /\ trace w' = trace w ++ concat (repeat blink_once k).
Proof.
  induction k as [| k IH]; intros i w Hi Hsum Hn.
  - cbn [Nat.mul Nat.add blink_run]. unfold blink_step.
    cbn [bpc blink_count bworld].
    destruct (Z.ltb_spec i n) as [Hlt | _]; [lia |].
    exists w. cbn [repeat concat]. now rewrite app_nil_r.
  - replace (5 * S k + 1)%nat with (5 + (5 * k + 1))%nat by lia.
    rewrite blink_run_add.
    destruct (blink_once_steps i n w ltac:(lia)) as (w1 & Hrun1 & Hlp1 & Htr1).
    rewrite Hrun1, u32_small by lia.
    destruct (IH (i + 1) w1 ltac:(lia) ltac:(lia) Hn) as (w' & Hrun & Hlp & Htr).
    exists w'. split; [exact Hrun |]. split; [congruence |].
    rewrite Htr, Htr1. cbn [repeat concat]. now rewrite <- app_assoc.
Qed.

(** One period of the signal, from the head of [while(1)] back to it. *)
Lemma blink_period_runs (n : Z) w :
  0 <= n < 2 ^ 32 ->
  exists w',
    blink_run (5 * Z.to_nat n + 3) (BlinkConfig B_while n w)
    = BlinkConfig B_while n w'
    /\ low_power w' = low_power w
    /\ trace w' = trace w ++ blink_period (Z.to_nat n).
Proof.
  intros Hn.
  replace (5 * Z.to_nat n + 3)%nat with (1 + ((5 * Z.to_nat n + 1) + 1))%nat by lia.
  rewrite blink_run_add. cbn [blink_run]. unfold blink_step at 1.
  cbn [bpc blink_count bworld]. change (1 =? 0) with false. cbv iota.
  rewrite blink_run_add.
  destruct (blink_for_runs n (Z.to_nat n) 0 w ltac:(lia) ltac:(lia) ltac:(lia))
    as (w1 & Hrun1 & Hlp1 & Htr1).
  rewrite Hrun1. cbn [blink_run]. unfold blink_step.
  cbn [bpc blink_count bworld].
  eexists. split; [reflexivity |].
  unfold set_hw, log, blink_period. cbn [low_power trace].
  split; [exact Hlp1 | now rewrite Htr1, <- app_assoc].
Qed.

(** X19.  The halt signal goes on for ever with the count it was given:
    after the initial 1 ms delay, [blinken_halt(n)] runs period after
    period, each one [n] blinks (LED on, 100 ms, LED off, 100 ms) followed
    by a pause of one second; after any number [m] of periods control is
    back at the head of [while(1)], the trace has grown by exactly those
    calls, and the power flag is untouched. *)
Theorem blinken_halt_blinks_for_ever (n : Z) (m : nat) w :
  0 <= n < 2 ^ 32 ->
  exists w',
    blink_run (1 + m * (5 * Z.to_nat n + 3)) (BlinkConfig B_entry n w)
    = BlinkConfig B_while n w'
    /\ low_power w' = low_power w
    /\ trace w'
       = trace w ++ Call (c_delay_ms 1)
           :: concat (repeat (blink_period (Z.to_nat n)) m).
Proof.
  intros Hn. induction m as [| m IH].
  - cbn [Nat.mul Nat.add blink_run]. unfold blink_step.
    cbn [bpc blink_count bworld].
    eexists. split; [reflexivity |]. split; reflexivity.
  - replace (1 + S m * (5 * Z.to_nat n + 3))%nat
      with ((1 + m * (5 * Z.to_nat n + 3)) + (5 * Z.to_nat n + 3))%nat by lia.
    rewrite blink_run_add.
    destruct IH as (w1 & Hrun1 & Hlp1 & Htr1). rewrite Hrun1.
    destruct (blink_period_runs n w1 Hn) as (w' & Hrun & Hlp & Htr).
    exists w'. split; [exact Hrun |]. split; [congruence |].
    rewrite Htr, Htr1, <- app_assoc. cbn [app]. do 2 f_equal.
    replace (S m) with (m + 1)%nat by lia.
    rewrite repeat_app, concat_app. cbn [repeat concat].
    now rewrite app_nil_r.
Qed.

End BlinkFacts.

Lemma blinken_halt_blinks_for_ever_witness :
  exists w',
    blink_run 27 (BlinkConfig B_entry 2 (world0 bench0)) = BlinkConfig B_while 2 w'
    /\ calls (trace w')
       = [c_delay_ms 1;
          c_hw_set_led true; c_delay_ms 100; c_hw_set_led false; c_delay_ms 100;
          c_hw_set_led true; c_delay_ms 100; c_hw_set_led false; c_delay_ms 100;
          c_delay_ms 1000;
          c_hw_set_led true; c_delay_ms 100; c_hw_set_led false; c_delay_ms 100;
          c_hw_set_led true; c_delay_ms 100; c_hw_set_led false; c_delay_ms 100;
          c_delay_ms 1000].
Proof.
  destruct (blinken_halt_blinks_for_ever (board := bench_board) 2 2
              (world0 bench0) ltac:(lia)) as (w' & Hrun & _ & Htrace).
  exists w'. split; [exact Hrun |]. rewrite Htrace. reflexivity.
Defined.

(** X20.  The command table is well formed: no two entries share a name or
    a handler, every entry allows between 0 and 64 arguments with
    [min_arg <= max_arg], and, names being distinct, looking an entry up by
    its own name finds that very entry (no entry shadows another). *)
Theorem commands_table_is_well_formed :
  List.NoDup (map cmd commands)
  /\ List.NoDup (map handler commands)
  /\ Forall (fun c => 0 <= min_arg c <= max_arg c /\ max_arg c <= 64) commands
  /\ forall c, In c commands -> find_command (cmd c) commands = Some c.
Proof.
  split; [| split; [| split]].
  - unfold commands. cbn [map cmd].
    repeat (constructor; [cbn [In]; intuition discriminate |]). constructor.
  - unfold commands. cbn [map handler].
    repeat (constructor; [cbn [In]; intuition discriminate |]). constructor.
  - unfold commands. repeat constructor; cbn; lia.
  - intros c Hin. unfold commands in Hin. cbn [In] in Hin.
    repeat (destruct Hin as [<- | Hin]; [reflexivity |]). contradiction.
Qed.

Lemma help_lists_every_command_witness :
  In ("power    Handle low power mode" ++ nl)%string
     (transcript (final_trace
        (help_handler 1 ["help"%string] (world0 bench0)))).
Proof.
  destruct (help_lists_every_command (hw_t := bench) 1 ["help"%string]
              (world0 bench0)) as [_ Hlisted].
  exact (Hlisted "power"%string
           (Command "power" fn_power_handler 1 1 "Handle low power mode"
              "<low | normal>") eq_refl).
Defined.

Lemma tempalert_only_reports_witness :
  exists tr,
    temperature_alert_handler 3 ["tempalert"; "10"; "30"]%string (world0 bench0)
    = Ret tt (World false bench0 tr)
    /\ tr = [Print ("low:10 high:30" ++ nl)].
Proof.
  destruct (tempalert_only_reports (board := bench_board) 3
              ["tempalert"; "10"; "30"]%string (world0 bench0))
    as (tr & Hrun & H3 & _).
  exists tr. split; [exact Hrun | exact (H3 eq_refl)].
Defined.

Lemma commands_table_is_well_formed_witness :
  find_command "rfm" commands
  = Some (Command "rfm" fn_rfm_handler 0 3 "Handle RFM69" EmptyString).
Proof.
  destruct commands_table_is_well_formed as (_ & _ & _ & Hfind).
  apply (Hfind (Command "rfm" fn_rfm_handler 0 3 "Handle RFM69" EmptyString)).
  unfold commands. cbn [In]. tauto.
Defined.
